(** * Context compaction (src/core/compaction.py): a shallow embedding

    The module keeps an agent's conversation inside a token window in three
    tiers: a character-count token estimate, a backward scan that clears old
    tool output, and a planner/executor that cuts a span out of the history.

    Messages are Python dictionaries with values of any JSON-like type, so
    the embedding carries a small universe of Python values and an error
    type for the exceptions such code can raise on them.  Dictionaries
    are association lists in insertion order with unique keys; integers are
    [Z]; list indices are [nat].  [_log] only writes to stderr and has no
    influence on any returned value, so it is left out. *)

From Stdlib Require Import Ascii String QArith Qround.
From stdpp Require Import base decidable option list strings gmap.

Local Open Scope string_scope.
Local Open Scope nat_scope.
Local Open Scope list_scope.

(** ** Python values and exceptions *)

Local Set Warnings "-register-all".

Inductive pyval :=
  | PyNone
  | PyBool (b : bool)
  | PyInt (n : Z)
  | PyStr (s : string)
  | PyList (l : list pyval)
  | PyDict (d : list (string * pyval)).

(** A message is a [Dict[str, Any]]. *)
Abbreviation pydict := (list (string * pyval)).
Abbreviation message := (list (string * pyval)).

Inductive py_exn := TypeError | AttributeError | IndexError.

Inductive result (A : Type) :=
  | Ok (a : A)
  | Raise (e : py_exn).
Arguments Ok {A} a.
Arguments Raise {A} e.

Module PyMonad.
Definition bind {A B} (m : result A) (k : A → result B) : result B :=
  match m with
  | Ok a => k a
  | Raise e => Raise e
  end.

Notation "'do' x <- m ; k" := (bind m (fun x => k))
  (at level 10, x name, m at level 100, k at level 200).
Notation "'do' ' p <- m ; k" := (bind m (fun x => match x with p => k end))
  (at level 10, p pattern, m at level 100, k at level 200).
End PyMonad.
Import PyMonad.

Definition is_ok {A} (m : result A) : bool :=
  match m with Ok _ => true | Raise _ => false end.

(** ** Dictionary and value primitives *)

(** [d[k]] lookup by key, first binding. *)
Fixpoint dict_lookup (d : pydict) (k : string) : option pyval :=
  match d with
  | [] => None
  | (k', v) :: d' => if String.eqb k' k then Some v else dict_lookup d' k
  end.

(** [d.get(k, dflt)]; [d.get(k)] is [dict_get d k PyNone]. *)
Definition dict_get (d : pydict) (k : string) (dflt : pyval) : pyval :=
  default dflt (dict_lookup d k).

(** [{**d, k: v}]: the key keeps its position when it is present and is
    appended otherwise. *)
Fixpoint dict_set (d : pydict) (k : string) (v : pyval) : pydict :=
  match d with
  | [] => [(k, v)]
  | (k', v') :: d' =>
      if String.eqb k' k then (k', v) :: d' else (k', v') :: dict_set d' k v
  end.

(** [x.get(k, dflt)] on a value of unknown type. *)
Definition py_get (x : pyval) (k : string) (dflt : pyval) : result pyval :=
  match x with
  | PyDict d => Ok (dict_get d k dflt)
  | _ => Raise AttributeError
  end.

(** [x == s] for a string literal [s]. *)
Definition py_eq_str (x : pyval) (s : string) : bool :=
  match x with
  | PyStr s' => String.eqb s' s
  | _ => false
  end.

(** Truth value, as used by [x or y]. *)
Definition py_truthy (x : pyval) : bool :=
  match x with
  | PyNone => false
  | PyBool b => b
  | PyInt n => negb (n =? 0)%Z
  | PyStr s => negb (String.eqb s "")
  | PyList l => negb (bool_decide (length l = 0))
  | PyDict d => negb (bool_decide (length d = 0))
  end.

Definition py_or (x y : pyval) : pyval := if py_truthy x then x else y.

(** [len(x)] *)
Definition py_len (x : pyval) : result Z :=
  match x with
  | PyStr s => Ok (Z.of_nat (String.length s))
  | PyList l => Ok (Z.of_nat (length l))
  | PyDict d => Ok (Z.of_nat (length d))
  | _ => Raise TypeError
  end.

Fixpoint string_chars (s : string) : list pyval :=
  match s with
  | EmptyString => []
  | String c s' => PyStr (String c EmptyString) :: string_chars s'
  end.

(** The items [for tc in x] visits. *)
Definition py_iter (x : pyval) : result (list pyval) :=
  match x with
  | PyList l => Ok l
  | PyStr s => Ok (string_chars s)
  | PyDict d => Ok (map (λ kv, PyStr kv.1) d)
  | _ => Raise TypeError
  end.

(** A [for] loop that accumulates into a state and may raise. *)
Fixpoint for_each {I S} (body : I → S → result S) (items : list I) (s : S)
  : result S :=
  match items with
  | [] => Ok s
  | i :: rest => do s' <- body i s; for_each body rest s'
  end.

(** A [for] loop whose body may [break]. *)
Inductive loop_ctl (S : Type) :=
  | Continue (s : S)
  | Break (s : S).
Arguments Continue {S} s.
Arguments Break {S} s.

Fixpoint for_break {I S} (body : I → S → result (loop_ctl S))
    (items : list I) (s : S) : result S :=
  match items with
  | [] => Ok s
  | i :: rest =>
      do c <- body i s;
      match c with
      | Continue s' => for_break body rest s'
      | Break s' => Ok s'
      end
  end.

(** [range(n - 1, -1, -1)] *)
Fixpoint range_down (n : nat) : list nat :=
  match n with
  | O => []
  | S k => k :: range_down k
  end.

(** [l[i:]] for an integer [i] *)
Definition slice_from {A} (l : list A) (i : Z) : list A :=
  if (i <? 0)%Z then drop (Z.to_nat (Z.max 0 (Z.of_nat (length l) + i))) l
  else drop (Z.to_nat i) l.

(** ** Constants *)

Definition APPROX_CHARS_PER_TOKEN : Z := 4.
Definition MODEL_CONTEXT_LIMIT : Z := 7000.
Definition OUTPUT_TOKEN_MAX : Z := 16384.
Definition AUTO_COMPACT_THRESHOLD : Q := 85 # 100.
Definition PRUNE_PROTECT : Z := 36000.
Definition PRUNE_MINIMUM : Z := 6000.
Definition PRUNE_MARKER : string := "[Old tool result content cleared]".
Definition PROTECTED_MESSAGE_COUNT : nat := 2.
Definition SUMMARY_TOKEN_ESTIMATE : Z := 2000.

(** src/config/defaults.py, the entries of [CONFIG] for context management *)
Module CONFIG.
Definition model_context_limit : Z := 200000.
Definition output_token_max : Z := 16384.
Definition auto_compact_threshold : Q := 85 # 100.
Definition prune_protect : Z := 30000.
Definition prune_minimum : Z := 5000.
End CONFIG.

(** ** Token estimation *)

Definition estimate_tokens (text : pyval) : result Z :=
  do n <- py_len (py_or text (PyStr ""));
  Ok (Z.max 0 (n / APPROX_CHARS_PER_TOKEN)).

Definition content_part_tokens (part : pyval) (tokens : Z) : result Z :=
  match part with
  | PyDict d =>
      do t <- estimate_tokens (dict_get d "text" (PyStr ""));
      let tokens := (tokens + t)%Z in
      if py_eq_str (dict_get d "type" PyNone) "image_url"
      then Ok (tokens + 1000)%Z
      else Ok tokens
  | _ => Ok tokens
  end.

Definition tool_call_tokens (tc : pyval) (tokens : Z) : result Z :=
  do func <- py_get tc "function" (PyDict []);
  do name <- py_get func "name" (PyStr "");
  do n <- estimate_tokens name;
  do arguments <- py_get func "arguments" (PyStr "");
  do a <- estimate_tokens arguments;
  Ok (tokens + n + a)%Z.

Definition estimate_message_tokens (msg : message) : result Z :=
  let tokens := 0%Z in
  let content := dict_get msg "content" PyNone in
  do tokens <-
    match content with
    | PyStr _ => do t <- estimate_tokens content; Ok (tokens + t)%Z
    | PyList parts => for_each content_part_tokens parts tokens
    | _ => Ok tokens
    end;
  do tool_calls <- py_iter (dict_get msg "tool_calls" (PyList []));
  do tokens <- for_each tool_call_tokens tool_calls tokens;
  Ok (tokens + 4)%Z.

Definition estimate_total_tokens (messages : list message) : result Z :=
  for_each (λ m acc, do t <- estimate_message_tokens m; Ok (acc + t)%Z)
           messages 0%Z.

(** ** Overflow detection *)

Definition get_usable_context : Z := MODEL_CONTEXT_LIMIT.

(** [total_tokens > usable * threshold].  The threshold is a float in the
    source; it is a rational here.  For the limits of this module the float
    products are exact (7000 * 0.85 is 5950.0 and 7000 * 0.75 is 5250.0) and
    Python compares an int with a float exactly. *)
Definition is_overflow (total_tokens : Z) (threshold : Q) : bool :=
  negb (Qle_bool (inject_Z total_tokens)
                 (inject_Z get_usable_context * threshold)).

Definition needs_compaction (messages : list message) : result bool :=
  do total_tokens <- estimate_total_tokens messages;
  Ok (is_overflow total_tokens AUTO_COMPACT_THRESHOLD).

(** ** Tool output pruning *)

Record scan_state := mk_scan {
  total : Z;          (* tool output tokens seen, going backwards *)
  pruned : Z;         (* tokens that will be pruned *)
  to_prune : list nat;(* indices to prune, in the order they were appended *)
  turns : Z           (* user turn counter *)
}.

Definition scan_init : scan_state := mk_scan 0 0 [] 0.

(** The body of the backward loop of [prune_old_tool_outputs], for the
    message [msg] at [msg_index]. *)
Definition scan_visit (protect_last_turns : Z) (msg_index : nat)
    (msg : message) (st : scan_state) : result (loop_ctl scan_state) :=
  let turns :=
    if py_eq_str (dict_get msg "role" PyNone) "user"
    then (turns st + 1)%Z else turns st in
  let st := mk_scan (total st) (pruned st) (to_prune st) turns in
  if (turns <? protect_last_turns)%Z then Ok (Continue st)
  else if py_eq_str (dict_get msg "role" PyNone) "tool" then
    let content := dict_get msg "content" (PyStr "") in
    if py_eq_str content PRUNE_MARKER then Ok (Break st)
    else
      do estimate <- estimate_tokens content;
      let total := (total st + estimate)%Z in
      if (PRUNE_PROTECT <? total)%Z
      then Ok (Continue (mk_scan total (pruned st + estimate)%Z
                                 (to_prune st ++ [msg_index]) turns))
      else Ok (Continue (mk_scan total (pruned st) (to_prune st) turns))
  else Ok (Continue st).

(** One iteration: [msg = messages[msg_index]], then the body. *)
Definition scan_step (messages : list message) (protect_last_turns : Z)
    (msg_index : nat) (st : scan_state) : result (loop_ctl scan_state) :=
  match messages !! msg_index with
  | None => Raise IndexError
  | Some msg => scan_visit protect_last_turns msg_index msg st
  end.

Definition prune_scan (messages : list message) (protect_last_turns : Z)
  : result scan_state :=
  for_break (scan_step messages protect_last_turns)
            (range_down (length messages)) scan_init.

(** The list built by the final [enumerate] loop. *)
Definition prune_commit (messages : list message) (to_prune : list nat)
  : list message :=
  let indices_to_prune : gset nat := list_to_set to_prune in
  imap (λ i msg,
          if bool_decide (i ∈ indices_to_prune)
          then dict_set msg "content" (PyStr PRUNE_MARKER)
          else msg)
       messages.

Definition prune_old_tool_outputs (messages : list message)
    (protect_last_turns : Z) : result (list message) :=
  match messages with
  | [] => Ok messages
  | _ =>
      do st <- prune_scan messages protect_last_turns;
      if (pruned st <=? PRUNE_MINIMUM)%Z then Ok messages
      else Ok (prune_commit messages (to_prune st))
  end.

(** ** Compaction *)

(** The planner's forward loop: state is (accumulated, messages_to_compact). *)
Definition plan_step (tokens_to_remove : Z) (msg : message) (st : Z * Z)
  : result (loop_ctl (Z * Z)) :=
  do t <- estimate_message_tokens msg;
  let accumulated := (st.1 + t)%Z in
  let messages_to_compact := (st.2 + 1)%Z in
  if (tokens_to_remove <=? accumulated)%Z
  then Ok (Break (accumulated, messages_to_compact))
  else Ok (Continue (accumulated, messages_to_compact)).

Definition _find_messages_to_compact (messages : list message)
    (target_tokens : Z) : result (Z * Z) :=
  let protected_messages := take PROTECTED_MESSAGE_COUNT messages in
  let compactable_messages := drop PROTECTED_MESSAGE_COUNT messages in
  do protected_tokens <- estimate_total_tokens protected_messages;
  do compactable_tokens <- estimate_total_tokens compactable_messages;
  let total_tokens := (protected_tokens + compactable_tokens)%Z in
  if (total_tokens <=? target_tokens)%Z then Ok (0, 0)%Z
  else if (Z.of_nat (length compactable_messages) <=? 2)%Z then Ok (0, 0)%Z
  else
    let max_kept_tokens :=
      (target_tokens - protected_tokens - SUMMARY_TOKEN_ESTIMATE)%Z in
    if (max_kept_tokens <=? 0)%Z
    then Ok (Z.of_nat PROTECTED_MESSAGE_COUNT,
             Z.of_nat (length compactable_messages) - 2)%Z
    else
      let tokens_to_remove := (compactable_tokens - max_kept_tokens)%Z in
      if (tokens_to_remove <=? 0)%Z then Ok (0, 0)%Z
      else
        do st <- for_break (plan_step tokens_to_remove)
                           compactable_messages (0, 0)%Z;
        let messages_to_compact := st.2 in
        let max_to_compact :=
          (Z.of_nat (length compactable_messages) - 2)%Z in
        let messages_to_compact :=
          Z.min messages_to_compact (Z.max 0 max_to_compact) in
        Ok (Z.of_nat PROTECTED_MESSAGE_COUNT, messages_to_compact).

(** The summarizer client (src/api/client.py): [chat] either returns a
    response text or raises [LLMError]. *)
Record LLMError := mk_LLMError { code : string; error_message : string }.
Record LLMResponse := mk_LLMResponse { text : string }.
Record LLMClient := mk_LLMClient {
  chat : list message → LLMError + LLMResponse
}.

(** [int(q)]: truncation towards zero. *)
Definition py_int (q : Q) : Z :=
  if Qle_bool 0 q then Qfloor q else Qceiling q.

Definition run_compaction (llm : LLMClient) (messages : list message)
    (system_prompt : string) (model : option string)
    (target_tokens : option Z) : result (list message) :=
  let target_tokens :=
    match target_tokens with
    | None => let usable := get_usable_context in
              py_int (inject_Z usable * (75 # 100))
    | Some t => t
    end in
  do '(compact_start, num_to_compact) <-
    _find_messages_to_compact messages target_tokens;
  if (num_to_compact =? 0)%Z then Ok messages
  else
    let protected_messages := take PROTECTED_MESSAGE_COUNT messages in
    let messages_to_keep :=
      slice_from messages (compact_start + num_to_compact) in
    do protected_tokens <- estimate_total_tokens protected_messages;
    do keep_tokens <- estimate_total_tokens messages_to_keep;
    let compacted := protected_messages in
    let compacted := (compacted ++ messages_to_keep)%list in
    do final_tokens <- estimate_total_tokens compacted;
    Ok compacted.

(** ** Main context management *)

Definition manage_context (messages : list message) (system_prompt : string)
    (llm : LLMClient) (force_compaction : bool) : result (list message) :=
  do total_tokens <- estimate_total_tokens messages;
  if negb force_compaction
     && negb (is_overflow total_tokens AUTO_COMPACT_THRESHOLD)
  then Ok messages
  else
    do pruned <- prune_old_tool_outputs messages 2;
    do pruned_tokens <- estimate_total_tokens pruned;
    if negb (is_overflow pruned_tokens AUTO_COMPACT_THRESHOLD)
       && negb force_compaction
    then Ok pruned
    else
      do compacted <- run_compaction llm pruned system_prompt None None;
      do compacted_tokens <- estimate_total_tokens compacted;
      Ok compacted.

(** ** Sample data *)

Definition str_msg (role content : string) : message :=
  [("role", PyStr role); ("content", PyStr content)].

(** A string of [n] letters. *)
Definition filler (n : positive) : string := Pos.iter (String "x"%char) "" n.


(** ** Specification vocabulary: token estimates *)

(** [floor(length(text) / 4)] *)
Definition chars_tokens (s : string) : Z := (Z.of_nat (String.length s) / 4)%Z.

Definition Zsum (l : list Z) : Z := foldr Z.add 0%Z l.

(** The text carried by a field: the string itself, nothing when absent. *)
Definition field_text (v : pyval) : string :=
  match v with
  | PyStr s => s
  | _ => ""
  end.

Definition is_text_or_absent (v : pyval) : bool :=
  match v with
  | PyStr _ | PyNone => true
  | _ => false
  end.

(** A content part: its text tokens, and 1000 more for an image part. *)
Definition part_tokens (part : pyval) : Z :=
  match part with
  | PyDict d =>
      (chars_tokens (field_text (dict_get d "text" (PyStr "")))
       + (if py_eq_str (dict_get d "type" PyNone) "image_url" then 1000 else 0))%Z
  | _ => 0%Z
  end.

Definition content_tokens (content : pyval) : Z :=
  match content with
  | PyStr s => chars_tokens s
  | PyList parts => Zsum (map part_tokens parts)
  | _ => 0%Z
  end.

(** A tool call: the tokens of its function name and of its arguments. *)
Definition call_tokens (tc : pyval) : Z :=
  match tc with
  | PyDict d =>
      match dict_get d "function" (PyDict []) with
      | PyDict f =>
          (chars_tokens (field_text (dict_get f "name" (PyStr "")))
           + chars_tokens (field_text (dict_get f "arguments" (PyStr ""))))%Z
      | _ => 0%Z
      end
  | _ => 0%Z
  end.

Definition attached_calls (msg : message) : list pyval :=
  match dict_get msg "tool_calls" (PyList []) with
  | PyList tcs => tcs
  | _ => []
  end.

Definition message_tokens (msg : message) : Z :=
  (content_tokens (dict_get msg "content" PyNone)
   + Zsum (map call_tokens (attached_calls msg)) + 4)%Z.

(** The message shapes on which the estimator is defined: every text is a
    string or absent, [tool_calls] is absent or a list of dictionaries whose
    [function] is absent or a dictionary.  A content of another type and a
    part that is not a dictionary are allowed: the estimator skips them. *)
Definition part_ok (part : pyval) : bool :=
  match part with
  | PyDict d => is_text_or_absent (dict_get d "text" (PyStr ""))
  | _ => true
  end.

Definition call_ok (tc : pyval) : bool :=
  match tc with
  | PyDict d =>
      match dict_get d "function" (PyDict []) with
      | PyDict f =>
          is_text_or_absent (dict_get f "name" (PyStr ""))
          && is_text_or_absent (dict_get f "arguments" (PyStr ""))
      | _ => false
      end
  | _ => false
  end.

Definition message_ok (msg : message) : bool :=
  match dict_get msg "content" PyNone with
  | PyList parts => forallb part_ok parts
  | _ => true
  end
  &&
  match dict_get msg "tool_calls" (PyList []) with
  | PyList tcs => forallb call_ok tcs
  | _ => false
  end.

(** An assistant message as an API response carries it when the model
    called no tool. *)
Definition null_tool_calls_msg : message :=
  [("role", PyStr "assistant"); ("content", PyStr "done");
   ("tool_calls", PyNone)].

(** A well-formed assistant message with an image part and a tool call. *)
Definition rich_msg : message :=
  [("role", PyStr "assistant");
   ("content",
    PyList [PyDict [("type", PyStr "text"); ("text", PyStr "look at this")];
            PyDict [("type", PyStr "image_url");
                    ("image_url", PyDict [("url", PyStr "data:")])]]);
   ("tool_calls",
    PyList [PyDict [("id", PyStr "c1");
                    ("function",
                     PyDict [("name", PyStr "shell_command");
                             ("arguments", PyStr "{}")])]])].

(** ** Specification vocabulary: the compaction plan *)

(** Estimated tokens of the [j] oldest messages of [l]. *)
Definition prefix_tokens (l : list message) (j : nat) : Z :=
  Zsum (map message_tokens (take j l)).

(** [k] is the number of oldest messages of [l] at which the accumulated
    estimates first reach [r]; all of [l] when they never do. *)
Definition first_reach (l : list message) (r : Z) (k : nat) : Prop :=
  1 ≤ k ≤ length l
  ∧ (∀ j, 1 ≤ j < k → (prefix_tokens l j < r)%Z)
  ∧ ((r ≤ prefix_tokens l k)%Z ∨ k = length l).

(** Two protected messages followed by [n] messages of [chars] characters. *)
Definition long_history (n : nat) (chars : positive) : list message :=
  [str_msg "system" "You are an agent."; str_msg "user" "Fix the build."]
  ++ replicate n (str_msg "assistant" (filler chars)).

(** ** Specification vocabulary: the pruning scan *)

Definition is_role (r : string) (msg : message) : bool :=
  py_eq_str (dict_get msg "role" PyNone) r.

Definition msg_content (msg : message) : pyval :=
  dict_get msg "content" (PyStr "").

(** The content is the sentinel already. *)
Definition is_sentinel (msg : message) : bool :=
  py_eq_str (msg_content msg) PRUNE_MARKER.

(** Values [estimate_tokens] accepts: anything with a length, and anything
    false. *)
Definition sized_or_falsy (v : pyval) : bool :=
  match v with
  | PyBool b => negb b
  | PyInt n => (n =? 0)%Z
  | _ => true
  end.

(** [floor(len / 4)] of a value with a length, 0 otherwise. *)
Definition len_tokens (v : pyval) : Z :=
  match v with
  | PyStr s => chars_tokens s
  | PyList l => (Z.of_nat (length l) / 4)%Z
  | PyDict d => (Z.of_nat (length d) / 4)%Z
  | _ => 0%Z
  end.

(** A tool message has a content the estimator accepts. *)
Definition content_ok (msg : message) : bool :=
  negb (is_role "tool" msg) || sized_or_falsy (msg_content msg).

(** The predicates below read a list [l] as the messages from some index to
    the end of the history, oldest first. *)

(** User turns met when scanning back from the end down to the head of [l]. *)
Definition user_turns (l : list message) : Z :=
  Z.of_nat (length (List.filter (is_role "user") l)).

(** Some tool message of [l] outside the protected turns is the sentinel:
    the backward scan does not get past it. *)
Fixpoint halts_in (protect_last_turns : Z) (l : list message) : bool :=
  match l with
  | [] => false
  | m :: rest =>
      (is_role "tool" m && is_sentinel m
       && negb (user_turns l <? protect_last_turns)%Z)
      || halts_in protect_last_turns rest
  end.

(** Tool output tokens of [l] outside the protected turns. *)
Fixpoint seen_tokens (protect_last_turns : Z) (l : list message) : Z :=
  match l with
  | [] => 0%Z
  | m :: rest =>
      ((if is_role "tool" m && negb (user_turns l <? protect_last_turns)%Z
        then len_tokens (msg_content m) else 0)
       + seen_tokens protect_last_turns rest)%Z
  end.

(** Index [i] lies in the last [protect_last_turns] user turns. *)
Definition in_window (messages : list message) (protect_last_turns : Z)
    (i : nat) : bool :=
  (user_turns (drop i messages) <? protect_last_turns)%Z.

(** The backward scan reaches index [i]: nothing newer stopped it. *)
Definition visited (messages : list message) (protect_last_turns : Z)
    (i : nat) : bool :=
  negb (halts_in protect_last_turns (drop (S i) messages)).

(** The running total once the scan has handled index [i]. *)
Definition seen (messages : list message) (protect_last_turns : Z)
    (i : nat) : Z :=
  seen_tokens protect_last_turns (drop i messages).

(** Tool output tokens of the message at index [i]. *)
Definition tokens_at (messages : list message) (i : nat) : Z :=
  match messages !! i with
  | Some m => len_tokens (msg_content m)
  | None => 0%Z
  end.

(** The marking rule for the message [m] at index [i]: a tool message that
    is not the sentinel, outside the protected turns, reached by the scan,
    at which the running total exceeds the protect budget. *)
Definition marked (messages : list message) (protect_last_turns : Z)
    (i : nat) (m : message) : Prop :=
  is_role "tool" m = true
  ∧ is_sentinel m = false
  ∧ in_window messages protect_last_turns i = false
  ∧ visited messages protect_last_turns i = true
  ∧ (PRUNE_PROTECT < seen messages protect_last_turns i)%Z.

(** ** Proof vocabulary: loops with their control flag *)

(** [for_break] before the flag is dropped. *)
Fixpoint run_ctl {I S} (body : I → S → result (loop_ctl S))
    (items : list I) (s : S) : result (loop_ctl S) :=
  match items with
  | [] => Ok (Continue s)
  | i :: rest =>
      do c <- body i s;
      match c with
      | Continue s' => run_ctl body rest s'
      | Break s' => Ok (Break s')
      end
  end.

Definition ctl_state {S} (c : loop_ctl S) : S :=
  match c with
  | Continue s => s
  | Break s => s
  end.

(** The backward scan over a suffix [l] of the history whose head has index
    [i]: the newest message is visited first. *)
Fixpoint scan_suffix (protect_last_turns : Z) (i : nat) (l : list message)
  : result (loop_ctl scan_state) :=
  match l with
  | [] => Ok (Continue scan_init)
  | m :: rest =>
      do c <- scan_suffix protect_last_turns (S i) rest;
      match c with
      | Continue st => scan_visit protect_last_turns i m st
      | Break st => Ok (Break st)
      end
  end.

(** Scenario A of the spec, scaled to the module's budgets: one large tool
    result older than the last two user turns. *)
Definition stale_tool_history : list message :=
  [str_msg "system" "You are an agent.";
   str_msg "user" "Fix the build.";
   str_msg "assistant" "Running the build.";
   str_msg "tool" (filler 170000);
   str_msg "user" "Try again.";
   str_msg "user" "And once more."].

(** What the scan state records about the suffix [l] with head index [i]:
    the marked indices, without repetition, and their tokens. *)
Definition marks_ok (protect_last_turns : Z) (i : nat) (l : list message)
    (st : scan_state) : Prop :=
  (∀ j, j ∈ to_prune st ↔
        i ≤ j ∧ ∃ m, l !! (j - i) = Some m
                     ∧ marked l protect_last_turns (j - i) m)
  ∧ NoDup (to_prune st)
  ∧ pruned st = Zsum (map (λ j, tokens_at l (j - i)) (to_prune st)).

(** A result that is not a normal end of the loop: a [break] or a raise. *)
Definition stopped {S} (r : result (loop_ctl S)) : Prop :=
  match r with
  | Ok (Continue _) => False
  | _ => True
  end.

(** The other entries of a dictionary, in order. *)
Definition other_fields (k : string) (d : pydict) : pydict :=
  List.filter (λ kv, negb (String.eqb kv.1 k)) d.

Definition sentinel_msg : message := str_msg "tool" PRUNE_MARKER.

(** A history pruned before: its only old tool result is the sentinel. *)
Definition pruned_history : list message :=
  [str_msg "system" "You are an agent.";
   str_msg "user" "Fix the build.";
   sentinel_msg;
   str_msg "user" "Try again.";
   str_msg "user" "And once more."].

(** A tool message whose content is an integer: the estimator would raise on
    it. *)
Definition malformed_tool_msg : message :=
  [("role", PyStr "tool"); ("content", PyInt 7)].

(** Two summarizer clients: one that always raises, one that answers. *)
Definition failing_llm : LLMClient :=
  mk_LLMClient (λ _, inl (mk_LLMError "http_500" "API error")).

Definition answering_llm : LLMClient :=
  mk_LLMClient (λ _, inr (mk_LLMResponse "SUMMARY")).

(** A history that still overflows after pruning: a large stale tool result
    followed by four long assistant messages and two user turns. *)
Definition overflowing_history : list message :=
  [str_msg "system" "You are an agent.";
   str_msg "user" "Fix the build.";
   str_msg "tool" (filler 170000)]
  ++ replicate 4 (str_msg "assistant" (filler 8000))
  ++ [str_msg "user" "Try again."; str_msg "user" "And once more."].

(** The same history after the pruner has cleared the tool result. *)
Definition overflowing_pruned : list message :=
  [str_msg "system" "You are an agent.";
   str_msg "user" "Fix the build.";
   sentinel_msg]
  ++ replicate 4 (str_msg "assistant" (filler 8000))
  ++ [str_msg "user" "Try again."; str_msg "user" "And once more."].

(** A history whose second message is a large tool result. *)
Definition tool_in_prefix_history : list message :=
  [str_msg "system" "You are an agent.";
   str_msg "tool" (filler 170000);
   str_msg "user" "Fix the build.";
   str_msg "user" "Try again."].

(** One stale tool result of 35000 tokens, older than the last two user
    turns. *)
Definition midsize_tool_history : list message :=
  [str_msg "system" "You are an agent.";
   str_msg "user" "Fix the build.";
   str_msg "tool" (filler 140000);
   str_msg "user" "Try again.";
   str_msg "user" "And once more."].

(** Two stale tool results: a small one, and a newer one that already
    exceeds the protect budget. *)
Definition two_tools_history : list message :=
  [str_msg "system" "You are an agent.";
   str_msg "user" "Fix the build.";
   str_msg "tool" (filler 20000);
   str_msg "tool" (filler 180000);
   str_msg "user" "Try again.";
   str_msg "user" "And once more."].

(** The content of the message is a string (or missing, which the pruner
    reads as the empty string). *)
Definition text_content (msg : message) : bool :=
  match msg_content msg with
  | PyStr _ => true
  | _ => false
  end.

(** ** Specification vocabulary: tool output tokens *)

(** The tokens of a message's output as the estimator counts a content: the
    text tokens of a string, the part tokens of a part list. *)
Definition tool_output_tokens (msg : message) : Z :=
  content_tokens (dict_get msg "content" PyNone).

(** Tool output tokens of [l] outside the protected turns, counted as the
    estimator counts a content. *)
Fixpoint seen_output (protect_last_turns : Z) (l : list message) : Z :=
  match l with
  | [] => 0%Z
  | m :: rest =>
      ((if is_role "tool" m && negb (user_turns l <? protect_last_turns)%Z
        then tool_output_tokens m else 0)
       + seen_output protect_last_turns rest)%Z
  end.

Definition output_tokens_at (messages : list message) (i : nat) : Z :=
  match messages !! i with
  | Some m => tool_output_tokens m
  | None => 0%Z
  end.

(** The marking rule with the running total of tool output tokens: a tool
    message that is not the sentinel, outside the protected turns, reached
    by the scan, at which the tool output tokens seen so far (its own
    included) exceed the protect budget. *)
Definition marked_output (messages : list message) (protect_last_turns : Z)
    (i : nat) (m : message) : Prop :=
  is_role "tool" m = true
  ∧ is_sentinel m = false
  ∧ in_window messages protect_last_turns i = false
  ∧ visited messages protect_last_turns i = true
  ∧ (PRUNE_PROTECT
     < seen_output protect_last_turns (drop i messages))%Z.

(** A tool message carries a string content (or none). *)
Definition tool_text (msg : message) : bool :=
  negb (is_role "tool" msg) || text_content msg.

(** A tool result given as a part list: one text part of 200016
    characters. *)
Definition part_list_tool_msg : message :=
  [("role", PyStr "tool");
   ("content",
    PyList [PyDict [("type", PyStr "text");
                    ("text", PyStr (filler 200016))]])].

Definition part_list_tool_history : list message :=
  [str_msg "system" "You are an agent.";
   str_msg "user" "Fix the build.";
   part_list_tool_msg;
   str_msg "user" "Try again.";
   str_msg "user" "And once more."].

(** * Proofs *)

(** ** The error monad and the loops *)

Lemma bind_ok {A B} (m : result A) (k : A → result B) (b : B) :
  PyMonad.bind m k = Ok b ↔ ∃ a, m = Ok a ∧ k a = Ok b.
Proof.
  destruct m as [a|e]; simpl; split.
  - intros H. exists a. done.
  - intros (a' & [= <-] & H). done.
  - discriminate.
  - intros (a' & H & _). discriminate.
Qed.

Ltac inv_bind H :=
  let a := fresh "a" in
  let Ha := fresh "Ha" in
  apply bind_ok in H as (a & Ha & H).

(** A loop whose body adds [f i] to the accumulator computes a sum. *)
Lemma for_each_sum {I} (body : I → Z → result Z) (f : I → Z) (items : list I) :
  (∀ i acc, i ∈ items → body i acc = Ok (acc + f i)%Z) →
  ∀ acc, for_each body items acc = Ok (acc + Zsum (map f items))%Z.
Proof.
  induction items as [|i items IH]; intros Hbody acc; simpl.
  - f_equal. lia.
  - rewrite Hbody by left. simpl. rewrite IH.
    + f_equal. unfold Zsum. lia.
    + intros j acc' Hj. apply Hbody. by right.
Qed.

Lemma Zsum_app (l1 l2 : list Z) : Zsum (l1 ++ l2) = (Zsum l1 + Zsum l2)%Z.
Proof. induction l1 as [|x l1 IH]; simpl; [done | rewrite IH; lia]. Qed.

(** ** Token estimation *)

Lemma chars_tokens_nonneg (s : string) : (0 ≤ chars_tokens s)%Z.
Proof. unfold chars_tokens. apply Z.div_pos; lia. Qed.

Lemma estimate_tokens_str (s : string) :
  estimate_tokens (PyStr s) = Ok (chars_tokens s).
Proof.
  unfold estimate_tokens, py_or. simpl.
  destruct s as [|c s]; simpl; [done |].
  f_equal. fold (chars_tokens (String c s)).
  pose proof (chars_tokens_nonneg (String c s)). unfold APPROX_CHARS_PER_TOKEN.
  unfold chars_tokens in *. simpl String.length in *. lia.
Qed.

Lemma estimate_tokens_text (v : pyval) :
  is_text_or_absent v = true →
  estimate_tokens v = Ok (chars_tokens (field_text v)).
Proof.
  destruct v; try discriminate; intros _.
  - done.
  - apply estimate_tokens_str.
Qed.

Lemma content_part_tokens_ok (part : pyval) (tokens : Z) :
  part_ok part = true →
  content_part_tokens part tokens = Ok (tokens + part_tokens part)%Z.
Proof.
  destruct part as [| | | |l|d]; simpl; intros Hok;
    try (f_equal; lia).
  rewrite estimate_tokens_text by done. simpl.
  destruct (py_eq_str _ _); f_equal; lia.
Qed.

Lemma tool_call_tokens_ok (tc : pyval) (tokens : Z) :
  call_ok tc = true →
  tool_call_tokens tc tokens = Ok (tokens + call_tokens tc)%Z.
Proof.
  destruct tc as [| | | |l|d]; simpl; try discriminate.
  unfold tool_call_tokens. simpl.
  destruct (dict_get d "function" (PyDict [])) as [| | | |l|f]; try discriminate.
  intros [H1 H2]%andb_prop. simpl.
  rewrite (estimate_tokens_text _ H1). simpl.
  rewrite (estimate_tokens_text _ H2). simpl.
  f_equal. lia.
Qed.

Lemma estimate_message_tokens_ok (msg : message) :
  message_ok msg = true →
  estimate_message_tokens msg = Ok (message_tokens msg).
Proof.
  unfold message_ok, estimate_message_tokens, message_tokens, attached_calls.
  intros [Hc Ht]%andb_prop.
  destruct (dict_get msg "tool_calls" (PyList [])) as [| | | |tcs|]; try discriminate.
  assert (Hcalls : ∀ acc, for_each tool_call_tokens tcs acc
                          = Ok (acc + Zsum (map call_tokens tcs))%Z).
  { apply for_each_sum. intros tc acc Htc. apply tool_call_tokens_ok.
    rewrite forallb_forall in Ht. apply Ht. by apply list_elem_of_In. }
  destruct (dict_get msg "content" PyNone) as [| | |s|parts|d]; simpl;
    try (rewrite Hcalls; simpl; f_equal; lia).
  - rewrite estimate_tokens_str. simpl. rewrite Hcalls. simpl. f_equal; lia.
  - rewrite (for_each_sum content_part_tokens part_tokens).
    + simpl. rewrite Hcalls. simpl. f_equal; lia.
    + intros p acc Hp. apply content_part_tokens_ok.
      rewrite forallb_forall in Hc. apply Hc. by apply list_elem_of_In.
Qed.

Lemma estimate_total_tokens_ok (messages : list message) :
  forallb message_ok messages = true →
  estimate_total_tokens messages = Ok (Zsum (map message_tokens messages)).
Proof.
  intros Hall. unfold estimate_total_tokens.
  rewrite (for_each_sum _ message_tokens).
  - f_equal.
  - intros m acc Hm. rewrite estimate_message_tokens_ok; [done |].
    rewrite forallb_forall in Hall. apply Hall. by apply list_elem_of_In.
Qed.

(** C9 (counterexample).  A field of the wrong type can be fatal: an
    assistant message whose [tool_calls] is [None] makes the estimator raise
    [TypeError] instead of counting it as zero tokens. *)
Lemma estimate_null_tool_calls_raises :
  estimate_message_tokens null_tool_calls_msg = Raise TypeError
  ∧ estimate_total_tokens [null_tool_calls_msg] = Raise TypeError.
Proof. split; reflexivity. Qed.

(** C9 (amended).  [estimate_tokens] of a text is [floor(len / 4)], is
    non-negative, grows with the length, and is 0 for the empty and for the
    absent text.  On a message whose texts are strings or absent and whose
    [tool_calls] is absent or a list of tool-call dictionaries, the message
    estimate is the text tokens of the content (with 1000 more for each image
    part), plus the name and argument tokens of each tool call, plus 4; a
    content of another type and a part that is not a dictionary count as
    zero, and so do missing fields.  [estimate_total_tokens] is the sum of the
    message estimates. *)
Theorem estimator_contract (s1 s2 : string) (msg : message)
    (messages : list message) :
  (String.length s1 ≤ String.length s2)%nat →
  message_ok msg = true →
  forallb message_ok messages = true →
  estimate_tokens (PyStr s1) = Ok (Z.of_nat (String.length s1) / 4)%Z
  ∧ (0 ≤ chars_tokens s1 ≤ chars_tokens s2)%Z
  ∧ estimate_tokens (PyStr "") = Ok 0%Z
  ∧ estimate_tokens PyNone = Ok 0%Z
  ∧ estimate_message_tokens msg
    = Ok (content_tokens (dict_get msg "content" PyNone)
          + Zsum (map call_tokens (attached_calls msg)) + 4)%Z
  ∧ (dict_lookup msg "content" = None →
     dict_lookup msg "tool_calls" = None →
     estimate_message_tokens msg = Ok 4%Z)
  ∧ estimate_total_tokens messages = Ok (Zsum (map message_tokens messages)).
Proof.
  intros Hlen Hmsg Hall.
  split; [apply estimate_tokens_str |].
  split.
  { split; [apply chars_tokens_nonneg |].
    unfold chars_tokens. apply Z.div_le_mono; lia. }
  split; [reflexivity |]. split; [reflexivity |].
  split; [by apply estimate_message_tokens_ok |].
  split; [| by apply estimate_total_tokens_ok].
  intros Hc Ht. rewrite estimate_message_tokens_ok by done.
  unfold message_tokens, attached_calls, dict_get. rewrite Hc, Ht. done.
Qed.

Lemma estimator_contract_witness :
  (String.length "abcd" ≤ String.length "abcdefghi")%nat
  ∧ message_ok rich_msg = true
  ∧ estimate_tokens (PyStr "abcd") = Ok 1%Z
  ∧ (chars_tokens "abcd" ≤ chars_tokens "abcdefghi")%Z
  ∧ estimate_message_tokens rich_msg = Ok 1010%Z
  ∧ estimate_total_tokens [rich_msg; str_msg "user" "12345678"]
    = Ok 1016%Z.
Proof.
  assert (H1 : (String.length "abcd" ≤ String.length "abcdefghi")%nat)
    by (simpl; lia).
  assert (H2 : message_ok rich_msg = true) by reflexivity.
  assert (H3 : forallb message_ok [rich_msg; str_msg "user" "12345678"]
               = true) by reflexivity.
  destruct (estimator_contract "abcd" "abcdefghi" rich_msg
              [rich_msg; str_msg "user" "12345678"] H1 H2 H3)
    as (E1 & [_ E2] & _ & _ & E3 & _ & E4).
  split; [exact H1 |]. split; [exact H2 |]. split; [exact E1 |].
  split; [exact E2 |]. split; [exact E3 | exact E4].
Defined.

(** ** The compaction planner *)

Lemma forallb_take {A} (p : A → bool) (l : list A) (n : nat) :
  forallb p l = true → forallb p (take n l) = true.
Proof.
  rewrite !forallb_forall. intros H x Hx. apply H.
  apply list_elem_of_In. apply list_elem_of_In in Hx.
  by apply (subseteq_take n l).
Qed.

Lemma forallb_drop {A} (p : A → bool) (l : list A) (n : nat) :
  forallb p l = true → forallb p (drop n l) = true.
Proof.
  rewrite !forallb_forall. intros H x Hx. apply H.
  apply list_elem_of_In. apply list_elem_of_In in Hx.
  by apply (subseteq_drop n l).
Qed.

Lemma prefix_tokens_cons (m : message) (l : list message) (j : nat) :
  prefix_tokens (m :: l) (S j) = (message_tokens m + prefix_tokens l j)%Z.
Proof. reflexivity. Qed.

Lemma plan_loop (r : Z) (l : list message) :
  forallb message_ok l = true →
  ∀ acc c, ∃ k,
    for_break (plan_step r) l (acc, c)
    = Ok ((acc + prefix_tokens l k)%Z, (c + Z.of_nat k)%Z)
    ∧ k ≤ length l
    ∧ (l ≠ [] → 1 ≤ k)
    ∧ (∀ j, 1 ≤ j < k → (acc + prefix_tokens l j < r)%Z)
    ∧ ((r ≤ acc + prefix_tokens l k)%Z ∨ k = length l).
Proof.
  induction l as [|m l IH]; intros Hok acc c.
  - exists 0. simpl. unfold prefix_tokens. simpl.
    split; [do 2 f_equal; lia |]. split; [lia |]. split; [done |].
    split; [lia |]. by right.
  - simpl in Hok. apply andb_prop in Hok as [Hm Hl].
    simpl. unfold plan_step at 1.
    rewrite (estimate_message_tokens_ok _ Hm). simpl.
    destruct (Z.leb_spec r (acc + message_tokens m)) as [Hr|Hr].
    + exists 1. rewrite prefix_tokens_cons.
      assert (H0 : prefix_tokens l 0 = 0%Z)
        by (unfold prefix_tokens; by rewrite take_0).
      rewrite H0. simpl.
      split; [do 2 f_equal; lia |]. split; [lia |]. split; [lia |].
      split; [intros j Hj; lia |]. left. lia.
    + destruct (IH Hl (acc + message_tokens m)%Z (c + 1)%Z)
        as (k & Hrun & Hk & Hk1 & Hlt & Hge).
      exists (S k). cbn [PyMonad.bind]. rewrite Hrun, prefix_tokens_cons.
      split; [do 2 f_equal; lia |].
      split; [simpl; lia |]. split; [lia |]. split.
      * intros [|j] Hj; [lia |]. rewrite prefix_tokens_cons.
        destruct j as [|j].
        -- unfold prefix_tokens. rewrite take_0. simpl. lia.
        -- specialize (Hlt (S j)). lia.
      * destruct Hge as [Hge | ->]; [left; lia | by right].
Qed.

(** C6.  On a well-formed history the planner decides in this order: no-op
    (count 0) when the total is at most the target, when at most 2 messages
    are compactable, or when [toRemove <= 0]; else, when
    [maxKept = target - protectedTokens - 2000] is [<= 0], everything
    compactable except the last 2; else start 2 and the number of oldest
    compactable messages whose accumulated estimates first reach [toRemove],
    capped at the compactable length minus 2.  The count never takes the last
    2 compactable messages. *)
Theorem planner_contract (messages : list message) (target_tokens : Z) :
  forallb message_ok messages = true →
  let compactable := drop PROTECTED_MESSAGE_COUNT messages in
  let protected_tokens :=
    Zsum (map message_tokens (take PROTECTED_MESSAGE_COUNT messages)) in
  let compactable_tokens := Zsum (map message_tokens compactable) in
  let n := Z.of_nat (length compactable) in
  let max_kept :=
    (target_tokens - protected_tokens - SUMMARY_TOKEN_ESTIMATE)%Z in
  let to_remove := (compactable_tokens - max_kept)%Z in
  ∃ start count,
    _find_messages_to_compact messages target_tokens = Ok (start, count)
    ∧ ((protected_tokens + compactable_tokens ≤ target_tokens)%Z
       ∨ (n ≤ 2)%Z ∨ (to_remove ≤ 0)%Z → count = 0%Z)
    ∧ ((target_tokens < protected_tokens + compactable_tokens)%Z →
       (2 < n)%Z → (max_kept ≤ 0)%Z →
       start = Z.of_nat PROTECTED_MESSAGE_COUNT ∧ count = (n - 2)%Z)
    ∧ ((target_tokens < protected_tokens + compactable_tokens)%Z →
       (2 < n)%Z → (0 < max_kept)%Z → (0 < to_remove)%Z →
       start = Z.of_nat PROTECTED_MESSAGE_COUNT
       ∧ ∃ k, first_reach compactable to_remove k
              ∧ count = Z.min (Z.of_nat k) (n - 2))
    ∧ (0 ≤ count ≤ Z.max 0 (n - 2))%Z.
Proof.
  intros Hok compactable protected_tokens compactable_tokens n max_kept
    to_remove.
  unfold _find_messages_to_compact.
  rewrite (estimate_total_tokens_ok _ (forallb_take _ _ _ Hok)).
  rewrite (estimate_total_tokens_ok _ (forallb_drop _ _ _ Hok)).
  cbn [PyMonad.bind].
  fold compactable. fold protected_tokens. fold compactable_tokens.
  fold n. fold max_kept. fold to_remove.
  assert (Hremove : to_remove
                    = (protected_tokens + compactable_tokens
                       + SUMMARY_TOKEN_ESTIMATE - target_tokens)%Z)
    by (unfold to_remove, max_kept; lia).
  assert (Hest : SUMMARY_TOKEN_ESTIMATE = 2000%Z) by reflexivity.
  destruct (Z.leb_spec (protected_tokens + compactable_tokens) target_tokens)
    as [Htot|Htot].
  { exists 0%Z, 0%Z. repeat split; try done; lia. }
  destruct (Z.leb_spec n 2) as [Hn|Hn].
  { exists 0%Z, 0%Z. repeat split; try done; lia. }
  destruct (Z.leb_spec max_kept 0) as [Hk|Hk].
  { exists (Z.of_nat PROTECTED_MESSAGE_COUNT), (n - 2)%Z.
    repeat split; try done; lia. }
  destruct (Z.leb_spec to_remove 0) as [Hr|Hr].
  { exists 0%Z, 0%Z. repeat split; try done; lia. }
  destruct (plan_loop to_remove compactable (forallb_drop _ _ _ Hok) 0%Z 0%Z)
    as (k & Hrun & Hk1 & Hk2 & Hlt & Hge).
  rewrite Hrun. cbn [PyMonad.bind fst snd].
  exists (Z.of_nat PROTECTED_MESSAGE_COUNT),
         (Z.min (0 + Z.of_nat k) (Z.max 0 (n - 2)))%Z.
  assert (Hne : compactable ≠ []).
  { intros E. unfold n in Hn. rewrite E in Hn. simpl in Hn. lia. }
  specialize (Hk2 Hne).
  split; [done |]. split; [lia |]. split; [lia |]. split; [| lia].
  intros _ _ _ _. split; [done |]. exists k. split; [| lia].
  split; [lia |]. split.
  - intros j Hj. specialize (Hlt j Hj). lia.
  - destruct Hge as [Hge | ->]; [left; lia | by right].
Qed.

Lemma planner_contract_witness :
  forallb message_ok (long_history 10 4000) = true
  ∧ _find_messages_to_compact (long_history 10 4000) 7055 = Ok (2, 5)%Z
  ∧ _find_messages_to_compact (long_history 10 4000) 1500 = Ok (2, 8)%Z
  ∧ _find_messages_to_compact (long_history 10 4000) 10055 = Ok (0, 0)%Z.
Proof.
  assert (Hok : forallb message_ok (long_history 10 4000) = true)
    by (vm_compute; reflexivity).
  split; [exact Hok |].
  destruct (planner_contract (long_history 10 4000) 7055 Hok)
    as (s1 & c1 & E1 & _).
  destruct (planner_contract (long_history 10 4000) 1500 Hok)
    as (s2 & c2 & E2 & _).
  destruct (planner_contract (long_history 10 4000) 10055 Hok)
    as (s3 & c3 & E3 & _).
  rewrite E1, E2, E3.
  vm_compute in E1. vm_compute in E2. vm_compute in E3.
  injection E1 as <- <-. injection E2 as <- <-. injection E3 as <- <-.
  repeat split.
Defined.

(** ** The pruning scan *)

Lemma for_break_run_ctl {I S} (body : I → S → result (loop_ctl S))
    (items : list I) (s : S) :
  for_break body items s = do c <- run_ctl body items s; Ok (ctl_state c).
Proof.
  revert s. induction items as [|i items IH]; intros s; simpl; [done |].
  destruct (body i s) as [[s'|s']|e]; simpl; auto.
Qed.

Lemma run_ctl_app {I S} (body : I → S → result (loop_ctl S))
    (l1 l2 : list I) (s : S) :
  run_ctl body (l1 ++ l2) s
  = do c <- run_ctl body l1 s;
    match c with
    | Continue s' => run_ctl body l2 s'
    | Break s' => Ok (Break s')
    end.
Proof.
  revert s. induction l1 as [|i l1 IH]; intros s; simpl; [done |].
  destruct (body i s) as [[s'|s']|e]; simpl; auto.
Qed.

Lemma range_down_rev_seq (n : nat) : range_down n = rev (seq 0 n).
Proof.
  induction n as [|n IH]; [done |].
  rewrite seq_S, rev_app_distr. simpl. by rewrite IH.
Qed.

(** The index loop of the source is the scan over the list suffix. *)
Lemma run_scan_suffix (plt : Z) (l pre : list message) :
  run_ctl (scan_step (pre ++ l) plt) (rev (seq (length pre) (length l)))
          scan_init
  = scan_suffix plt (length pre) l.
Proof.
  revert pre. induction l as [|m l IH]; intros pre; [done |].
  cbn [length seq rev scan_suffix]. rewrite run_ctl_app.
  specialize (IH (pre ++ [m])).
  rewrite <- app_assoc, length_app in IH. simpl in IH.
  replace (length pre + 1) with (S (length pre)) in IH by lia.
  rewrite IH.
  destruct (scan_suffix plt (S (length pre)) l) as [[st|st]|e]; simpl; auto.
  unfold scan_step. rewrite list_lookup_middle by done.
  destruct (scan_visit plt (length pre) m st) as [[st'|st']|e]; done.
Qed.

Lemma prune_scan_suffix (messages : list message) (plt : Z) :
  prune_scan messages plt
  = do c <- scan_suffix plt 0 messages; Ok (ctl_state c).
Proof.
  unfold prune_scan. rewrite for_break_run_ctl, range_down_rev_seq.
  pose proof (run_scan_suffix plt messages []) as H. simpl in H.
  by rewrite H.
Qed.

Lemma estimate_tokens_sized (v : pyval) :
  sized_or_falsy v = true → estimate_tokens v = Ok (len_tokens v).
Proof.
  destruct v as [|b|n|s|l|d]; simpl; intros H.
  - done.
  - by destruct b.
  - apply Z.eqb_eq in H as ->. done.
  - apply estimate_tokens_str.
  - destruct l as [|x l]; [done |].
    unfold estimate_tokens, py_or. simpl py_truthy. cbn [negb].
    cbn [py_len PyMonad.bind]. f_equal.
    assert (0 ≤ Z.of_nat (length (x :: l)) / 4)%Z by (apply Z.div_pos; lia).
    unfold APPROX_CHARS_PER_TOKEN. lia.
  - destruct d as [|x d]; [done |].
    unfold estimate_tokens, py_or. simpl py_truthy. cbn [negb].
    cbn [py_len PyMonad.bind]. f_equal.
    assert (0 ≤ Z.of_nat (length (x :: d)) / 4)%Z by (apply Z.div_pos; lia).
    unfold APPROX_CHARS_PER_TOKEN. lia.
Qed.

Lemma len_tokens_nonneg (v : pyval) : (0 ≤ len_tokens v)%Z.
Proof.
  destruct v; simpl;
    first [lia | apply chars_tokens_nonneg | apply Z.div_pos; lia].
Qed.

Lemma user_turns_cons (m : message) (l : list message) :
  user_turns (m :: l)
  = ((if is_role "user" m then 1 else 0) + user_turns l)%Z.
Proof.
  unfold user_turns. simpl. destruct (is_role "user" m); simpl; lia.
Qed.

Lemma user_turns_nonneg (l : list message) : (0 ≤ user_turns l)%Z.
Proof. unfold user_turns. lia. Qed.

Lemma marked_cons (m0 : message) (l : list message) (plt : Z) (k : nat)
    (m : message) :
  marked (m0 :: l) plt (S k) m ↔ marked l plt k m.
Proof. reflexivity. Qed.

Lemma marks_index_shift (plt : Z) (i j : nat) (m0 : message)
    (l : list message) :
  S i ≤ j →
  ((∃ m, (m0 :: l) !! (j - i) = Some m ∧ marked (m0 :: l) plt (j - i) m)
   ↔ (∃ m, l !! (j - S i) = Some m ∧ marked l plt (j - S i) m))
  ∧ tokens_at (m0 :: l) (j - i) = tokens_at l (j - S i).
Proof.
  intros Hj. replace (j - i) with (S (j - S i)) by lia.
  split; [| reflexivity].
  split; intros (m & Hm & Hmk); exists m; split; try done;
    by apply marked_cons.
Qed.

Lemma marks_tokens_shift (plt : Z) (i : nat) (m0 : message)
    (l : list message) (tp : list nat) :
  (∀ j, j ∈ tp → S i ≤ j) →
  map (λ j, tokens_at (m0 :: l) (j - i)) tp
  = map (λ j, tokens_at l (j - S i)) tp.
Proof.
  intros Hge. apply map_ext_in. intros j Hj%list_elem_of_In.
  by apply (marks_index_shift plt i j m0 l), Hge.
Qed.

(** The head of the suffix is left unmarked. *)
Lemma marks_ok_skip (plt : Z) (i : nat) (m0 : message) (l : list message)
    (st st' : scan_state) :
  marks_ok plt (S i) l st →
  ¬ marked (m0 :: l) plt 0 m0 →
  to_prune st' = to_prune st →
  pruned st' = pruned st →
  marks_ok plt i (m0 :: l) st'.
Proof.
  intros (Hin & Hnd & Hsum) Hno Htp Hpr. unfold marks_ok.
  rewrite Htp, Hpr. split; [| split; [done |]].
  - intros j. rewrite Hin. split.
    + intros [Hj Hm]. split; [lia |].
      by apply (marks_index_shift plt i j m0 l).
    + intros [Hj (m & Hm & Hmk)].
      destruct (decide (j = i)) as [->|Hne].
      * rewrite Nat.sub_diag in Hm, Hmk. simpl in Hm.
        injection Hm as <-. done.
      * split; [lia |].
        apply (marks_index_shift plt i j m0 l); [lia |]. eauto.
  - rewrite Hsum. f_equal. symmetry. apply (marks_tokens_shift plt).
    intros j Hj. apply Hin in Hj. lia.
Qed.

(** The head of the suffix is marked and its index appended. *)
Lemma marks_ok_mark (plt : Z) (i : nat) (m0 : message) (l : list message)
    (st : scan_state) (tot trn : Z) :
  marks_ok plt (S i) l st →
  marked (m0 :: l) plt 0 m0 →
  marks_ok plt i (m0 :: l)
    (mk_scan tot (pruned st + len_tokens (msg_content m0))%Z
             (to_prune st ++ [i]) trn).
Proof.
  intros (Hin & Hnd & Hsum) Hmk. unfold marks_ok. simpl.
  assert (Hge : ∀ j, j ∈ to_prune st → S i ≤ j).
  { intros j Hj. apply Hin in Hj. lia. }
  split; [| split].
  - intros j. rewrite elem_of_app, list_elem_of_singleton, Hin. split.
    + intros [[Hj Hm] | ->].
      * split; [lia |]. by apply (marks_index_shift plt i j m0 l).
      * split; [lia |]. rewrite Nat.sub_diag. exists m0. done.
    + intros [Hj Hm].
      destruct (decide (j = i)) as [->|Hne]; [by right | left].
      split; [lia |]. apply (marks_index_shift plt i j m0 l); [lia | done].
  - apply NoDup_app. split; [done |]. split; [| apply NoDup_singleton].
    intros j Hj ->%list_elem_of_singleton. apply Hge in Hj. lia.
  - rewrite map_app, Zsum_app, (marks_tokens_shift plt) by done.
    rewrite <- Hsum. simpl. rewrite Nat.sub_diag.
    unfold tokens_at. simpl. lia.
Qed.

Lemma scan_visit_unfold (plt : Z) (i : nat) (m : message) (st : scan_state) :
  scan_visit plt i m st
  = let trn := ((if is_role "user" m then 1 else 0) + turns st)%Z in
    if (trn <? plt)%Z
    then Ok (Continue (mk_scan (total st) (pruned st) (to_prune st) trn))
    else if is_role "tool" m then
      if is_sentinel m
      then Ok (Break (mk_scan (total st) (pruned st) (to_prune st) trn))
      else
        do estimate <- estimate_tokens (msg_content m);
        if (PRUNE_PROTECT <? total st + estimate)%Z
        then Ok (Continue (mk_scan (total st + estimate)
                                   (pruned st + estimate)
                                   (to_prune st ++ [i]) trn))
        else Ok (Continue (mk_scan (total st + estimate) (pruned st)
                                   (to_prune st) trn))
    else Ok (Continue (mk_scan (total st) (pruned st) (to_prune st) trn)).
Proof.
  unfold scan_visit, is_role, is_sentinel, msg_content.
  destruct (py_eq_str (dict_get m "role" PyNone) "user"); cbn zeta.
  - by rewrite (Z.add_comm 1).
  - by rewrite Z.add_0_l.
Qed.

Lemma marks_ok_nil (plt : Z) (i : nat) : marks_ok plt i [] scan_init.
Proof.
  split; [| split; [apply NoDup_nil_2 | done]].
  intros j. simpl. split.
  - intros H. by apply elem_of_nil in H.
  - intros [_ (m & Hm & _)]. by rewrite lookup_nil in Hm.
Qed.

Lemma estimate_tokens_ok_inv (v : pyval) (e : Z) :
  estimate_tokens v = Ok e → sized_or_falsy v = true ∧ e = len_tokens v.
Proof.
  intros H. destruct (sized_or_falsy v) eqn:E.
  - rewrite (estimate_tokens_sized _ E) in H. by injection H as <-.
  - destruct v as [|b|n|s|l|d]; try discriminate.
    + destruct b; discriminate.
    + simpl in E. unfold estimate_tokens, py_or in H. simpl in H.
      rewrite E in H. discriminate.
Qed.

(** What the scan over a suffix returns, when it returns. *)
Lemma scan_suffix_inv (plt : Z) (l : list message) :
  ∀ i c,
    scan_suffix plt i l = Ok c →
    match c with
    | Continue st =>
        halts_in plt l = false
        ∧ turns st = user_turns l
        ∧ total st = seen_tokens plt l
    | Break _ => halts_in plt l = true
    end
    ∧ marks_ok plt i l (ctl_state c).
Proof.
  induction l as [|m l IH]; intros i c Hrun.
  { injection Hrun as <-. simpl. split; [done |]. apply marks_ok_nil. }
  cbn [scan_suffix] in Hrun. apply bind_ok in Hrun as (c' & Hrun' & Hrun).
  destruct (IH (S i) c' Hrun') as (Hc & Hmarks).
  destruct c' as [st|st]; simpl in Hmarks.
  2: { (* the scan had stopped already *)
    injection Hrun as <-. split.
    - simpl. rewrite Hc. apply orb_true_r.
    - apply (marks_ok_skip plt i m l st st); try done.
      intros (_ & _ & _ & Hv & _). unfold visited in Hv.
      change (drop 1 (m :: l)) with l in Hv. rewrite Hc in Hv. done. }
  destruct Hc as (Hhalt & Hturns & Htotal).
  rewrite scan_visit_unfold in Hrun. cbn zeta in Hrun.
  rewrite Hturns, <- user_turns_cons in Hrun.
  assert (Hwin : in_window (m :: l) plt 0 = (user_turns (m :: l) <? plt)%Z)
    by reflexivity.
  assert (Hvis : visited (m :: l) plt 0 = true).
  { unfold visited. change (drop 1 (m :: l)) with l. by rewrite Hhalt. }
  assert (Hseen : seen (m :: l) plt 0
                  = ((if is_role "tool" m
                         && negb (user_turns (m :: l) <? plt)%Z
                      then len_tokens (msg_content m) else 0)
                     + seen_tokens plt l)%Z) by reflexivity.
  assert (Hsn : seen_tokens plt (m :: l) = seen (m :: l) plt 0)
    by reflexivity.
  assert (Hh : halts_in plt (m :: l)
               = is_role "tool" m && is_sentinel m
                 && negb (user_turns (m :: l) <? plt)%Z).
  { cbn [halts_in]. rewrite Hhalt. apply orb_false_r. }
  rewrite Hsn, Hh.
  destruct (user_turns (m :: l) <? plt)%Z eqn:Ew.
  { (* inside the protected turns *)
    injection Hrun as <-. split.
    - rewrite Hseen, !andb_false_r. simpl.
      split; [done |]. split; [done | lia].
    - apply (marks_ok_skip plt i m l st); try done.
      intros (_ & _ & Hw & _). congruence. }
  destruct (is_role "tool" m) eqn:Et.
  2: { (* not a tool message *)
    injection Hrun as <-. split.
    - rewrite Hseen. simpl. split; [done |]. split; [done | lia].
    - apply (marks_ok_skip plt i m l st); try done.
      intros (Ht & _). congruence. }
  destruct (is_sentinel m) eqn:Es.
  { (* the sentinel: stop *)
    injection Hrun as <-. split; [done |].
    apply (marks_ok_skip plt i m l st); try done.
    intros (_ & Hs & _). congruence. }
  apply bind_ok in Hrun as (e & He & Hrun).
  apply estimate_tokens_ok_inv in He as [_ ->].
  simpl in Hseen.
  destruct (PRUNE_PROTECT <? total st + len_tokens (msg_content m))%Z eqn:Ep;
    injection Hrun as <-.
  - (* past the protect budget: marked *)
    split.
    + rewrite Hseen. simpl. split; [done |]. split; [done | lia].
    + apply (marks_ok_mark plt i m l st); [done |].
      split; [done |]. split; [done |]. split; [done |].
      split; [done |]. rewrite Hseen. apply Z.ltb_lt in Ep. lia.
  - split.
    + rewrite Hseen. simpl. split; [done |]. split; [done | lia].
    + apply (marks_ok_skip plt i m l st); try done.
      intros (_ & _ & _ & _ & Hp). rewrite Hseen in Hp.
      apply Z.ltb_ge in Ep. lia.
Qed.

(** The scan raises nothing when every tool content has a length or is
    false. *)
Lemma scan_suffix_total (plt : Z) (l : list message) :
  forallb content_ok l = true → ∀ i, ∃ c, scan_suffix plt i l = Ok c.
Proof.
  induction l as [|m l IH]; intros Hok i; [by eexists |].
  simpl in Hok. apply andb_prop in Hok as [Hm Hl].
  destruct (IH Hl (S i)) as (c & Hrun).
  cbn [scan_suffix]. rewrite Hrun. cbn [PyMonad.bind].
  destruct c as [st|st]; [| by eexists].
  rewrite scan_visit_unfold. cbn zeta.
  destruct (_ <? plt)%Z; [by eexists |].
  destruct (is_role "tool" m) eqn:Et; [| by eexists].
  destruct (is_sentinel m); [by eexists |].
  unfold content_ok in Hm. rewrite Et in Hm.
  rewrite (estimate_tokens_sized _ Hm). cbn [PyMonad.bind].
  destruct (_ <? _)%Z; by eexists.
Qed.

Lemma prune_scan_total (messages : list message) (plt : Z) :
  forallb content_ok messages = true → ∃ st, prune_scan messages plt = Ok st.
Proof.
  intros Hok. destruct (scan_suffix_total plt messages Hok 0) as (c & Hc).
  exists (ctl_state c). by rewrite prune_scan_suffix, Hc.
Qed.

Lemma prune_scan_inv (messages : list message) (plt : Z) (st : scan_state) :
  prune_scan messages plt = Ok st →
  (∀ i, i ∈ to_prune st ↔
        ∃ m, messages !! i = Some m ∧ marked messages plt i m)
  ∧ NoDup (to_prune st)
  ∧ pruned st = Zsum (map (tokens_at messages) (to_prune st)).
Proof.
  rewrite prune_scan_suffix. intros (c & Hc & [= <-])%bind_ok.
  destruct (scan_suffix_inv plt messages 0 c Hc) as (_ & Hin & Hnd & Hsum).
  split; [| split; [done |]].
  - intros i. rewrite Hin, Nat.sub_0_r. split.
    + intros (_ & H). done.
    + intros H. split; [lia | done].
  - rewrite Hsum. f_equal. apply map_ext. intros j. by rewrite Nat.sub_0_r.
Qed.

(** ** Committing the evictions *)

Lemma dict_lookup_set_eq (d : pydict) (k : string) (v : pyval) :
  dict_lookup (dict_set d k v) k = Some v.
Proof.
  induction d as [|[k' v'] d IH]; simpl.
  - by rewrite String.eqb_refl.
  - destruct (String.eqb k' k) eqn:E; simpl; rewrite E; done.
Qed.

Lemma dict_lookup_set_ne (d : pydict) (k k' : string) (v : pyval) :
  k' ≠ k → dict_lookup (dict_set d k v) k' = dict_lookup d k'.
Proof.
  intros Hne. induction d as [|[k0 v0] d IH]; simpl.
  - destruct (String.eqb_spec k k'); congruence.
  - destruct (String.eqb_spec k0 k) as [->|Hk]; simpl.
    + destruct (String.eqb_spec k k'); congruence.
    + by rewrite IH.
Qed.

Lemma other_fields_set (d : pydict) (k : string) (v : pyval) :
  other_fields k (dict_set d k v) = other_fields k d.
Proof.
  unfold other_fields. induction d as [|[k0 v0] d IH]; simpl.
  - by rewrite String.eqb_refl.
  - destruct (String.eqb k0 k) eqn:E; simpl; rewrite E; simpl; [done |].
    by rewrite IH.
Qed.

Lemma is_sentinel_set (m : message) :
  is_sentinel (dict_set m "content" (PyStr PRUNE_MARKER)) = true.
Proof.
  unfold is_sentinel, msg_content, dict_get.
  by rewrite dict_lookup_set_eq.
Qed.

Lemma prune_commit_length (messages : list message) (tp : list nat) :
  length (prune_commit messages tp) = length messages.
Proof. unfold prune_commit. apply length_imap. Qed.

Lemma prune_commit_lookup_in (messages : list message) (tp : list nat)
    (i : nat) (m : message) :
  messages !! i = Some m → i ∈ tp →
  prune_commit messages tp !! i
  = Some (dict_set m "content" (PyStr PRUNE_MARKER)).
Proof.
  intros Hm Hi. unfold prune_commit. rewrite list_lookup_imap, Hm. simpl.
  rewrite bool_decide_eq_true_2; [done |]. by apply elem_of_list_to_set.
Qed.

Lemma prune_commit_lookup_out (messages : list message) (tp : list nat)
    (i : nat) :
  i ∉ tp → prune_commit messages tp !! i = messages !! i.
Proof.
  intros Hi. unfold prune_commit. rewrite list_lookup_imap.
  destruct (messages !! i) as [m|]; [| done]. simpl.
  rewrite bool_decide_eq_false_2; [done |]. by rewrite elem_of_list_to_set.
Qed.

Lemma prune_old_tool_outputs_eq (messages : list message) (plt : Z)
    (st : scan_state) :
  prune_scan messages plt = Ok st →
  prune_old_tool_outputs messages plt
  = Ok (if (pruned st <=? PRUNE_MINIMUM)%Z then messages
        else prune_commit messages (to_prune st)).
Proof.
  intros Hst. unfold prune_old_tool_outputs.
  destruct messages as [|m l].
  - injection Hst as <-. done.
  - rewrite Hst. cbn [PyMonad.bind]. by destruct (_ <=? _)%Z.
Qed.

Lemma Zsum_nonneg_pos (l : list Z) :
  (0 < Zsum l)%Z → l ≠ [].
Proof. intros H ->. simpl in H. lia. Qed.

(** C5.  When the pruner commits (the scan returned and [pruned] exceeds
    [PRUNE_MINIMUM]), the result has the length and the order of the input:
    at a marked index stands the input's tool message with its [content] set
    to the sentinel and every other field as it was, in the same order; at
    every other index stands the input's message itself. *)
Theorem prune_commit_frame (messages : list message)
    (protect_last_turns : Z) (st : scan_state) :
  prune_scan messages protect_last_turns = Ok st →
  (PRUNE_MINIMUM < pruned st)%Z →
  ∃ result,
    prune_old_tool_outputs messages protect_last_turns = Ok result
    ∧ length result = length messages
    ∧ ∀ i m, messages !! i = Some m →
        (i ∈ to_prune st →
         is_role "tool" m = true
         ∧ ∃ m', result !! i = Some m'
                 ∧ dict_lookup m' "content" = Some (PyStr PRUNE_MARKER)
                 ∧ (∀ k, k ≠ "content" → dict_lookup m' k = dict_lookup m k)
                 ∧ other_fields "content" m' = other_fields "content" m)
        ∧ (i ∉ to_prune st → result !! i = Some m).
Proof.
  intros Hst Hgt. exists (prune_commit messages (to_prune st)).
  rewrite (prune_old_tool_outputs_eq _ _ _ Hst).
  destruct (Z.leb_spec (pruned st) PRUNE_MINIMUM) as [Hle|_]; [lia |].
  split; [done |]. split; [apply prune_commit_length |].
  intros i m Hm. split.
  - intros Hi.
    destruct (prune_scan_inv _ _ _ Hst) as (Hin & _).
    apply Hin in Hi as Hmk. destruct Hmk as (m0 & Hm0 & Ht & _).
    assert (m0 = m) as -> by congruence.
    split; [done |].
    exists (dict_set m "content" (PyStr PRUNE_MARKER)).
    split; [by apply prune_commit_lookup_in |].
    split; [apply dict_lookup_set_eq |].
    split; [| apply other_fields_set].
    intros k Hk. by apply dict_lookup_set_ne.
  - intros Hi. by rewrite prune_commit_lookup_out.
Qed.

Lemma prune_commit_frame_witness :
  prune_scan stale_tool_history 2 = Ok (mk_scan 42500 42500 [3] 3)
  ∧ (PRUNE_MINIMUM < 42500)%Z
  ∧ ∃ result,
      prune_old_tool_outputs stale_tool_history 2 = Ok result
      ∧ length result = 6
      ∧ result !! 3 = Some sentinel_msg
      ∧ result !! 2 = Some (str_msg "assistant" "Running the build.").
Proof.
  assert (Hst : prune_scan stale_tool_history 2
                = Ok (mk_scan 42500 42500 [3] 3)) by (vm_compute; reflexivity).
  assert (Hgt : (PRUNE_MINIMUM < 42500)%Z) by reflexivity.
  split; [exact Hst |]. split; [exact Hgt |].
  destruct (prune_commit_frame stale_tool_history 2 _ Hst Hgt)
    as (result & Hres & Hlen & Hframe).
  exists result. split; [exact Hres |]. split; [exact Hlen |].
  split.
  - destruct (Hframe 3 (str_msg "tool" (filler 170000)) eq_refl)
      as (Hin & _).
    destruct Hin as (_ & m' & Hm' & _); [by left |].
    rewrite Hm'. f_equal.
    vm_compute in Hres. injection Hres as <-. by injection Hm' as <-.
  - destruct (Hframe 2 (str_msg "assistant" "Running the build.") eq_refl)
      as (_ & Hout).
    apply Hout. by intros ?%list_elem_of_singleton.
Defined.

(** ** Stopping at the sentinel *)

Lemma scan_suffix_app_stopped (plt : Z) (l1 l2 : list message) (i : nat) :
  stopped (scan_suffix plt (i + length l1) l2) →
  scan_suffix plt i (l1 ++ l2) = scan_suffix plt (i + length l1) l2.
Proof.
  revert i. induction l1 as [|a l1 IH]; intros i Hstop.
  - simpl. by rewrite Nat.add_0_r.
  - simpl length in *. rewrite <- Nat.add_succ_comm in *.
    cbn [app scan_suffix]. rewrite (IH (S i) Hstop).
    destruct (scan_suffix plt (S i + length l1) l2) as [[st|st]|e]; done.
Qed.

Lemma scan_suffix_stops (plt : Z) (i : nat) (m : message)
    (newer : list message) :
  is_role "tool" m = true →
  is_sentinel m = true →
  (plt ≤ user_turns (m :: newer))%Z →
  stopped (scan_suffix plt i (m :: newer)).
Proof.
  intros Ht Hs Hout. cbn [scan_suffix].
  destruct (scan_suffix plt (S i) newer) as [[st|st]|e] eqn:E; simpl;
    try done.
  destruct (scan_suffix_inv plt newer (S i) _ E) as ((_ & Hturns & _) & _).
  rewrite scan_visit_unfold. cbn zeta.
  rewrite Hturns, <- user_turns_cons, Ht, Hs.
  destruct (Z.ltb_spec (user_turns (m :: newer)) plt); [lia | done].
Qed.

Lemma halts_in_app (plt : Z) (l1 l2 : list message) :
  halts_in plt l2 = true → halts_in plt (l1 ++ l2) = true.
Proof.
  intros H. induction l1 as [|a l1 IH]; [done |].
  simpl. rewrite IH. apply orb_true_r.
Qed.

Lemma halts_in_sentinel (plt : Z) (m : message) (newer : list message) :
  is_role "tool" m = true →
  is_sentinel m = true →
  (plt ≤ user_turns (m :: newer))%Z →
  halts_in plt (m :: newer) = true.
Proof.
  intros Ht Hs Hout. cbn [halts_in]. rewrite Ht, Hs.
  destruct (Z.ltb_spec (user_turns (m :: newer)) plt); [lia | done].
Qed.

(** With every tool message already the sentinel, the scan marks nothing. *)
Lemma scan_suffix_all_sentinel (plt : Z) (l : list message) :
  (∀ x, x ∈ l → is_role "tool" x = true → is_sentinel x = true) →
  ∀ i, ∃ c, scan_suffix plt i l = Ok c
            ∧ pruned (ctl_state c) = 0%Z
            ∧ to_prune (ctl_state c) = [].
Proof.
  induction l as [|m l IH]; intros Hall i; [by eexists |].
  destruct (IH (λ x Hx, Hall x (list_elem_of_further _ _ _ Hx)) (S i))
    as (c & Hrun & Hp & Htp).
  cbn [scan_suffix]. rewrite Hrun. cbn [PyMonad.bind].
  destruct c as [st|st]; [| by eexists].
  simpl in Hp, Htp. rewrite scan_visit_unfold. cbn zeta.
  destruct (_ <? plt)%Z; [by eexists |].
  destruct (is_role "tool" m) eqn:Et; [| by eexists].
  rewrite (Hall m (list_elem_of_here _ _) Et). by eexists.
Qed.

(** C7.  A history whose tool messages are all the sentinel is returned by
    the pruner as it is.  The scan stops at a sentinel tool message outside
    the protected turns: nothing older than it is read, so the scan does the
    same whatever stands there, and marks only indices newer than it. *)
Theorem prune_idempotent_on_sentinels (messages older older' newer : list message)
    (m : message) (protect_last_turns : Z) :
  (∀ x, x ∈ messages → is_role "tool" x = true → is_sentinel x = true) →
  is_role "tool" m = true →
  is_sentinel m = true →
  (protect_last_turns ≤ user_turns (m :: newer))%Z →
  length older = length older' →
  prune_old_tool_outputs messages protect_last_turns = Ok messages
  ∧ prune_scan (older ++ m :: newer) protect_last_turns
    = prune_scan (older' ++ m :: newer) protect_last_turns
  ∧ (∀ st, prune_scan (older ++ m :: newer) protect_last_turns = Ok st →
           ∀ j, j ∈ to_prune st → length older < j).
Proof.
  intros Hall Ht Hs Hout Hlen. split; [| split].
  - destruct (scan_suffix_all_sentinel protect_last_turns messages Hall 0)
      as (c & Hrun & Hp & _).
    assert (Hst : prune_scan messages protect_last_turns = Ok (ctl_state c))
      by (by rewrite prune_scan_suffix, Hrun).
    rewrite (prune_old_tool_outputs_eq _ _ _ Hst), Hp. done.
  - rewrite !prune_scan_suffix.
    pose proof (scan_suffix_stops protect_last_turns (length older) m newer
                  Ht Hs Hout) as Hstop.
    rewrite (scan_suffix_app_stopped _ older (m :: newer) 0 Hstop).
    rewrite Hlen in Hstop.
    rewrite (scan_suffix_app_stopped _ older' (m :: newer) 0 Hstop).
    by rewrite Hlen.
  - intros st Hst j Hj.
    destruct (prune_scan_inv _ _ _ Hst) as (Hin & _).
    apply Hin in Hj as (m' & Hm' & _ & Hns & _ & Hv & _).
    destruct (decide (length older < j)) as [|Hle]; [done | exfalso].
    destruct (decide (j = length older)) as [->|Hne].
    + rewrite list_lookup_middle in Hm' by done. congruence.
    + unfold visited in Hv.
      rewrite drop_app_le in Hv by lia.
      rewrite halts_in_app in Hv; [done |].
      by apply halts_in_sentinel.
Qed.

Lemma prune_idempotent_on_sentinels_witness :
  is_sentinel sentinel_msg = true
  ∧ (2 ≤ user_turns [sentinel_msg; str_msg "user" "a"; str_msg "user" "b"])%Z
  ∧ prune_old_tool_outputs pruned_history 2 = Ok pruned_history
  ∧ prune_scan ([str_msg "system" "s"; str_msg "tool" (filler 200000)]
                ++ [sentinel_msg; str_msg "user" "a"; str_msg "user" "b"]) 2
    = prune_scan ([str_msg "system" "s"; malformed_tool_msg]
                  ++ [sentinel_msg; str_msg "user" "a"; str_msg "user" "b"])
                 2.
Proof.
  assert (Hs : is_sentinel sentinel_msg = true) by reflexivity.
  assert (Ht : is_role "tool" sentinel_msg = true) by reflexivity.
  assert (Hout : (2 ≤ user_turns [sentinel_msg; str_msg "user" "a";
                                  str_msg "user" "b"])%Z)
    by (vm_compute; discriminate).
  assert (Hall : ∀ x, x ∈ pruned_history →
                      is_role "tool" x = true → is_sentinel x = true).
  { apply (proj1 (Forall_forall
                      (λ x, is_role "tool" x = true → is_sentinel x = true)
                      pruned_history)).
    unfold pruned_history.
    repeat (apply Forall_cons_2; [vm_compute; congruence |]).
    apply Forall_nil_2. }
  destruct (prune_idempotent_on_sentinels pruned_history
              [str_msg "system" "s"; str_msg "tool" (filler 200000)]
              [str_msg "system" "s"; malformed_tool_msg]
              [str_msg "user" "a"; str_msg "user" "b"]
              sentinel_msg 2 Hall Ht Hs Hout eq_refl) as (H1 & H2 & _).
  split; [exact Hs |]. split; [exact Hout |]. split; [exact H1 | exact H2].
Defined.

(** ** The compaction executor *)

Lemma planner_result (messages : list message) (t : Z) :
  forallb message_ok messages = true →
  ∃ start count,
    _find_messages_to_compact messages t = Ok (start, count)
    ∧ (0 ≤ count)%Z
    ∧ (count ≠ 0%Z →
       start = 2%Z ∧ Z.to_nat count + 4 ≤ length messages).
Proof.
  intros Hok.
  pose proof (planner_contract messages t Hok) as H. cbv zeta in H.
  destruct H as (start & count & E & Hnoop & Hfull & Hwalk & Hrange).
  exists start, count. split; [done |]. split; [lia |].
  intros Hne.
  set (pt := Zsum (map message_tokens (take PROTECTED_MESSAGE_COUNT messages)))
    in *.
  set (ct := Zsum (map message_tokens (drop PROTECTED_MESSAGE_COUNT messages)))
    in *.
  assert (Hn : Z.of_nat (length (drop PROTECTED_MESSAGE_COUNT messages))
               = (Z.of_nat (length messages) - 2)%Z
               ∨ length messages < 2).
  { rewrite length_drop. unfold PROTECTED_MESSAGE_COUNT. lia. }
  set (n := Z.of_nat (length (drop PROTECTED_MESSAGE_COUNT messages))) in *.
  destruct (Z.le_gt_cases (pt + ct) t) as [H1|H1]; [lia |].
  destruct (Z.le_gt_cases n 2) as [H2|H2]; [lia |].
  assert (Hlen : Z.to_nat count + 4 ≤ length messages).
  { destruct Hn as [Hn|Hn]; [lia |].
    unfold n in H2. rewrite length_drop in H2. lia. }
  split; [| done].
  destruct (Z.le_gt_cases (t - pt - SUMMARY_TOKEN_ESTIMATE) 0) as [H3|H3].
  { destruct Hfull as [-> _]; [lia | lia | lia | done]. }
  destruct (Z.le_gt_cases (ct - (t - pt - SUMMARY_TOKEN_ESTIMATE)) 0)
    as [H4|H4]; [lia |].
  destruct Hwalk as [-> _]; [lia | lia | lia | lia | done].
Qed.

(** What [run_compaction] returns for the plan [(start, count)]: the input
    when the count is 0, else the first two messages followed by everything
    after the planned span. *)
Lemma run_compaction_planned (llm : LLMClient) (messages : list message)
    (system_prompt : string) (model : option string) (tgt : option Z)
    (start count : Z) :
  forallb message_ok messages = true →
  _find_messages_to_compact messages
    (match tgt with
     | None => py_int (inject_Z get_usable_context * (75 # 100))
     | Some t => t
     end) = Ok (start, count) →
  run_compaction llm messages system_prompt model tgt
  = Ok (if (count =? 0)%Z then messages
        else take 2 messages ++ drop (2 + Z.to_nat count) messages)
  ∧ (0 ≤ count)%Z
  ∧ (count ≠ 0%Z → Z.to_nat count + 4 ≤ length messages).
Proof.
  intros Hok Hplan.
  destruct (planner_result messages
              (match tgt with
               | None => py_int (inject_Z get_usable_context * (75 # 100))
               | Some t => t
               end) Hok) as (s & c & E & Hc & Hs).
  rewrite Hplan in E. injection E as <- <-.
  split; [| split; [done | intros Hne; by apply Hs]].
  unfold run_compaction. rewrite Hplan. cbn [PyMonad.bind].
  destruct (Z.eqb_spec count 0) as [->|Hne]; [done |].
  destruct (Hs Hne) as [-> Hlen].
  unfold slice_from. destruct (Z.ltb_spec (2 + count) 0) as [|_]; [lia |].
  replace (Z.to_nat (2 + count)) with (2 + Z.to_nat count) by lia.
  change PROTECTED_MESSAGE_COUNT with 2.
  assert (Hp : forallb message_ok (take 2 messages) = true)
    by by apply forallb_take.
  assert (Hk : forallb message_ok (drop (2 + Z.to_nat count) messages) = true)
    by by apply forallb_drop.
  rewrite (estimate_total_tokens_ok _ Hp), (estimate_total_tokens_ok _ Hk).
  cbn [PyMonad.bind].
  rewrite estimate_total_tokens_ok; [done |].
  rewrite forallb_app, Hp, Hk. done.
Qed.

Lemma run_compaction_result (llm : LLMClient) (messages : list message)
    (system_prompt : string) (model : option string) (tgt : option Z) :
  forallb message_ok messages = true →
  ∃ r, run_compaction llm messages system_prompt model tgt = Ok r
       ∧ take 2 r = take 2 messages
       ∧ forallb message_ok r = true.
Proof.
  intros Hok.
  destruct (planner_result messages
              (match tgt with
               | None => py_int (inject_Z get_usable_context * (75 # 100))
               | Some t => t
               end) Hok) as (start & count & Hplan & _ & _).
  destruct (run_compaction_planned llm messages system_prompt model tgt
              start count Hok Hplan) as (Hrun & _ & Hlen).
  eexists. split; [exact Hrun |].
  destruct (Z.eqb_spec count 0) as [|Hne]; [done |].
  specialize (Hlen Hne). split.
  - apply take_app_length'. rewrite length_take. lia.
  - rewrite forallb_app, forallb_take, forallb_drop; done.
Qed.

(** C1.  On the pruned overflowing history the planner returns the span
    (2, 4), and [run_compaction], whatever client it is given, returns the two
    protected messages followed directly by the kept suffix: five messages,
    none of them a summary.  The span is removed and nothing stands for it. *)
Lemma run_compaction_drops_span_example (llm : LLMClient) :
  _find_messages_to_compact overflowing_pruned 5250 = Ok (2, 4)%Z
  ∧ run_compaction llm overflowing_pruned "" None None
    = Ok (take 2 overflowing_pruned ++ drop 6 overflowing_pruned)
  ∧ length (take 2 overflowing_pruned ++ drop 6 overflowing_pruned) = 5
  ∧ ∀ summary : message,
      take 2 overflowing_pruned ++ drop 6 overflowing_pruned
      ≠ take 2 overflowing_pruned ++ [summary] ++ drop 6 overflowing_pruned.
Proof.
  split; [vm_compute; reflexivity |].
  split; [vm_compute; reflexivity |].
  split; [vm_compute; reflexivity |].
  intros summary H. apply (f_equal length) in H.
  rewrite !length_app in H. simpl in H. lia.
Qed.

(** C3.  With a client that raises on every call, [manage_context] on the
    overflowing history prunes it and then returns five messages: the planned
    span of the pruned list is gone although no summary could have been
    produced, and the result is not the pruned list. *)
Lemma manage_context_failing_summarizer_example :
  prune_old_tool_outputs overflowing_history 2 = Ok overflowing_pruned
  ∧ manage_context overflowing_history "" failing_llm false
    = Ok (take 2 overflowing_pruned ++ drop 6 overflowing_pruned)
  ∧ take 2 overflowing_pruned ++ drop 6 overflowing_pruned
    ≠ overflowing_pruned
  ∧ manage_context overflowing_history "" failing_llm false
    = manage_context overflowing_history "" answering_llm false.
Proof.
  split; [vm_compute; reflexivity |].
  split; [vm_compute; reflexivity |].
  split; [| vm_compute; reflexivity].
  intros H. apply (f_equal length) in H. vm_compute in H. discriminate.
Qed.

(** C10.  Neither [run_compaction] nor [manage_context] depends on the
    summarizer client or on the system prompt: two runs on the same history
    and force flag return the same result. *)
Theorem manage_context_ignores_summarizer (messages : list message)
    (system_prompt1 system_prompt2 : string) (llm1 llm2 : LLMClient)
    (model1 model2 : option string) (target_tokens : option Z)
    (force_compaction : bool) :
  run_compaction llm1 messages system_prompt1 model1 target_tokens
  = run_compaction llm2 messages system_prompt2 model2 target_tokens
  ∧ manage_context messages system_prompt1 llm1 force_compaction
    = manage_context messages system_prompt2 llm2 force_compaction.
Proof. split; reflexivity. Qed.

(** ** The protected prefix *)

Lemma message_ok_set_content (m : message) (s : string) :
  message_ok m = true →
  message_ok (dict_set m "content" (PyStr s)) = true.
Proof.
  unfold message_ok, dict_get. intros [_ Ht]%andb_prop.
  rewrite dict_lookup_set_eq. simpl.
  by rewrite dict_lookup_set_ne.
Qed.

Lemma prune_commit_message_ok (messages : list message) (tp : list nat) :
  forallb message_ok messages = true →
  forallb message_ok (prune_commit messages tp) = true.
Proof.
  rewrite !forallb_forall. intros Hok x Hx%list_elem_of_In.
  apply list_elem_of_lookup in Hx as (i & Hi).
  unfold prune_commit in Hi. rewrite list_lookup_imap in Hi.
  destruct (messages !! i) as [m|] eqn:Em; [| done].
  assert (Hm : message_ok m = true).
  { apply Hok, list_elem_of_In, list_elem_of_lookup. eauto. }
  simpl in Hi. injection Hi as <-.
  destruct (bool_decide _); [by apply message_ok_set_content | done].
Qed.

Lemma prune_commit_take (messages : list message) (tp : list nat) (n : nat) :
  (∀ i, i ∈ tp → ∃ m, messages !! i = Some m ∧ is_role "tool" m = true) →
  (∀ m, m ∈ take n messages → is_role "tool" m = false) →
  take n (prune_commit messages tp) = take n messages.
Proof.
  intros Htp Hpre. apply list_eq. intros i.
  destruct (decide (i < n)) as [Hi|Hi].
  - rewrite !lookup_take_lt by done.
    apply prune_commit_lookup_out. intros Hin.
    destruct (Htp i Hin) as (m & Hm & Ht).
    rewrite (Hpre m) in Ht; [done |].
    apply list_elem_of_lookup. exists i. by rewrite lookup_take_lt.
  - by rewrite !lookup_take_ge by lia.
Qed.

(** What the pruner returns on a well-formed history. *)
Lemma prune_result (messages : list message) (plt : Z) :
  forallb message_ok messages = true →
  forallb content_ok messages = true →
  ∃ p, prune_old_tool_outputs messages plt = Ok p
       ∧ forallb message_ok p = true
       ∧ ∀ n, (∀ m, m ∈ take n messages → is_role "tool" m = false) →
              take n p = take n messages.
Proof.
  intros Hok Hcontent.
  destruct (prune_scan_total messages plt Hcontent) as (st & Hst).
  rewrite (prune_old_tool_outputs_eq _ _ _ Hst).
  eexists. split; [done |].
  destruct (pruned st <=? PRUNE_MINIMUM)%Z; [done |].
  split; [by apply prune_commit_message_ok |].
  intros n Hpre. apply prune_commit_take; [| done].
  intros i Hi. destruct (prune_scan_inv _ _ _ Hst) as (Hin & _).
  apply Hin in Hi as (m & Hm & Ht & _). eauto.
Qed.

(** C2 (counterexample).  A tool message inside the first two messages is
    not protected from pruning: [manage_context] returns the history with
    the second message's content replaced by the sentinel. *)
Lemma manage_context_rewrites_prefix :
  ∃ r, manage_context tool_in_prefix_history "" failing_llm false = Ok r
       ∧ take PROTECTED_MESSAGE_COUNT r
         ≠ take PROTECTED_MESSAGE_COUNT tool_in_prefix_history.
Proof.
  eexists. split; [vm_compute; reflexivity |].
  intros H. apply (f_equal (λ l, is_sentinel <$> l !! 1)) in H.
  vm_compute in H. discriminate.
Qed.

(** C2 (amended).  On a well-formed history whose first two messages are not
    tool messages, [manage_context] returns a list with the same first two
    messages: the pruner leaves them as they are, and [run_compaction] keeps
    the first two messages of any well-formed history. *)
Theorem manage_context_keeps_prefix (messages : list message)
    (system_prompt : string) (llm : LLMClient) (force_compaction : bool) :
  forallb message_ok messages = true →
  forallb content_ok messages = true →
  (∀ m, m ∈ take PROTECTED_MESSAGE_COUNT messages →
        is_role "tool" m = false) →
  (∃ r, manage_context messages system_prompt llm force_compaction = Ok r
        ∧ take PROTECTED_MESSAGE_COUNT r
          = take PROTECTED_MESSAGE_COUNT messages)
  ∧ (∃ p, prune_old_tool_outputs messages 2 = Ok p
          ∧ take PROTECTED_MESSAGE_COUNT p
            = take PROTECTED_MESSAGE_COUNT messages)
  ∧ (∀ model target_tokens,
       ∃ c, run_compaction llm messages system_prompt model target_tokens
            = Ok c
            ∧ take PROTECTED_MESSAGE_COUNT c
              = take PROTECTED_MESSAGE_COUNT messages).
Proof.
  intros Hok Hcontent Hpre.
  destruct (prune_result messages 2 Hok Hcontent) as (p & Hp & Hpok & Hptake).
  specialize (Hptake PROTECTED_MESSAGE_COUNT Hpre).
  split; [| split].
  - unfold manage_context.
    rewrite (estimate_total_tokens_ok _ Hok). cbn [PyMonad.bind].
    destruct (negb force_compaction && _); [by eexists |].
    rewrite Hp. cbn [PyMonad.bind].
    rewrite (estimate_total_tokens_ok _ Hpok). cbn [PyMonad.bind].
    destruct (_ && negb force_compaction); [by eexists |].
    destruct (run_compaction_result llm p system_prompt None None Hpok)
      as (r & Hr & Hrtake & Hrok).
    rewrite Hr. cbn [PyMonad.bind].
    rewrite (estimate_total_tokens_ok _ Hrok). cbn [PyMonad.bind].
    exists r. split; [done |].
    change PROTECTED_MESSAGE_COUNT with 2 in *. congruence.
  - by exists p.
  - intros model target_tokens.
    destruct (run_compaction_result llm messages system_prompt model
                target_tokens Hok) as (c & Hc & Hctake & _).
    by exists c.
Qed.

Lemma manage_context_keeps_prefix_witness :
  forallb message_ok overflowing_history = true
  ∧ forallb content_ok overflowing_history = true
  ∧ ∃ r, manage_context overflowing_history "" answering_llm false = Ok r
         ∧ take 2 r = [str_msg "system" "You are an agent.";
                       str_msg "user" "Fix the build."].
Proof.
  assert (Hok : forallb message_ok overflowing_history = true)
    by (vm_compute; reflexivity).
  assert (Hcontent : forallb content_ok overflowing_history = true)
    by (vm_compute; reflexivity).
  assert (Hpre : ∀ m, m ∈ take PROTECTED_MESSAGE_COUNT overflowing_history →
                      is_role "tool" m = false).
  { intros m Hm. simpl in Hm.
    apply elem_of_cons in Hm as [->|Hm]; [reflexivity |].
    apply list_elem_of_singleton in Hm as ->. reflexivity. }
  split; [exact Hok |]. split; [exact Hcontent |].
  destruct (manage_context_keeps_prefix overflowing_history "" answering_llm
              false Hok Hcontent Hpre) as ((r & Hr & Htake) & _).
  exists r. split; [exact Hr | exact Htake].
Defined.

(** ** Constants *)

(** C8.  The limits the module uses are its own constants, and they differ
    from the values of [CONFIG]: 7000 against 200000 for the context limit,
    36000 against 30000 for the protect budget, 6000 against 5000 for the
    minimum.  So 6000 tokens overflow here although they are far below 85% of
    the configured limit, and a stale tool result of 35000 tokens is left
    alone although it exceeds the configured protect budget. *)
Lemma module_constants_differ_from_config :
  get_usable_context = 7000%Z
  ∧ get_usable_context ≠ CONFIG.model_context_limit
  ∧ PRUNE_PROTECT ≠ CONFIG.prune_protect
  ∧ PRUNE_MINIMUM ≠ CONFIG.prune_minimum
  ∧ is_overflow 6000 AUTO_COMPACT_THRESHOLD = true
  ∧ Qle_bool (inject_Z 6000)
             (inject_Z CONFIG.model_context_limit
              * CONFIG.auto_compact_threshold) = true
  ∧ tokens_at midsize_tool_history 2 = 35000%Z
  ∧ (CONFIG.prune_protect < 35000)%Z
  ∧ prune_old_tool_outputs midsize_tool_history 2 = Ok midsize_tool_history.
Proof.
  split; [reflexivity |].
  split; [discriminate |]. split; [discriminate |]. split; [discriminate |].
  split; [vm_compute; reflexivity |]. split; [vm_compute; reflexivity |].
  split; [vm_compute; reflexivity |]. split; [reflexivity |].
  assert (Hst : prune_scan midsize_tool_history 2
                = Ok (mk_scan 35000 0 [] 3)) by (vm_compute; reflexivity).
  rewrite (prune_old_tool_outputs_eq _ _ _ Hst). reflexivity.
Qed.

(** * Further properties of the module *)

(** ** Overflow detection and the fast path *)

Lemma is_overflow_threshold (total_tokens : Z) :
  is_overflow total_tokens AUTO_COMPACT_THRESHOLD = (5950 <? total_tokens)%Z.
Proof.
  unfold is_overflow, Qle_bool, get_usable_context, MODEL_CONTEXT_LIMIT,
    AUTO_COMPACT_THRESHOLD.
  cbn [inject_Z Qmult Qnum Qden Pos.mul].
  change (Z.pos (1 * 100)) with 100%Z.
  destruct (Z.leb_spec (total_tokens * 100) (7000 * 85 * 1));
    destruct (Z.ltb_spec 5950 total_tokens); simpl; try done; lia.
Qed.

(** X1.  With the default threshold a total overflows exactly when it
    exceeds 5950 tokens (85% of the 7000-token limit): [is_overflow] is the
    test [total > 5950], so it is monotone in the total, and
    [needs_compaction] on a well-formed history is that test on the sum of
    the message estimates. *)
Theorem overflow_threshold_exact (messages : list message) (t1 t2 : Z) :
  forallb message_ok messages = true →
  (t1 ≤ t2)%Z →
  (is_overflow t1 AUTO_COMPACT_THRESHOLD = true ↔ (5950 < t1)%Z)
  ∧ (is_overflow t1 AUTO_COMPACT_THRESHOLD = true →
     is_overflow t2 AUTO_COMPACT_THRESHOLD = true)
  ∧ needs_compaction messages
    = Ok (5950 <? Zsum (map message_tokens messages))%Z.
Proof.
  intros Hok Hle. rewrite !is_overflow_threshold. split; [| split].
  - apply Z.ltb_lt.
  - rewrite !Z.ltb_lt. lia.
  - unfold needs_compaction. rewrite (estimate_total_tokens_ok _ Hok).
    cbn [PyMonad.bind]. by rewrite is_overflow_threshold.
Qed.

Lemma overflow_threshold_exact_witness :
  forallb message_ok (long_history 10 4000) = true
  ∧ (5950 ≤ 5951)%Z
  ∧ is_overflow 5950 AUTO_COMPACT_THRESHOLD = false
  ∧ is_overflow 5951 AUTO_COMPACT_THRESHOLD = true
  ∧ needs_compaction (long_history 10 4000) = Ok true.
Proof.
  assert (Hok : forallb message_ok (long_history 10 4000) = true)
    by (vm_compute; reflexivity).
  assert (Hle : (5950 ≤ 5951)%Z) by lia.
  destruct (overflow_threshold_exact (long_history 10 4000) 5950 5951 Hok Hle)
    as (H1 & _ & H3).
  split; [exact Hok |]. split; [exact Hle |].
  split; [| split].
  - apply not_true_is_false. intros E. apply H1 in E. lia.
  - vm_compute. reflexivity.
  - rewrite H3. vm_compute. reflexivity.
Defined.

(** X2.  The fast path: when [needs_compaction] says no and compaction is
    not forced, [manage_context] returns the history itself.  The pruner is
    not run, so this holds whatever the tool messages contain. *)
Theorem manage_context_fast_path (messages : list message)
    (system_prompt : string) (llm : LLMClient) :
  needs_compaction messages = Ok false →
  manage_context messages system_prompt llm false = Ok messages.
Proof.
  unfold needs_compaction, manage_context.
  intros (t & Ht & [= Hov])%bind_ok.
  rewrite Ht. cbn [PyMonad.bind]. by rewrite Hov.
Qed.

Lemma manage_context_fast_path_witness :
  needs_compaction [str_msg "system" "s"; malformed_tool_msg;
                    str_msg "user" "a"; str_msg "user" "b"] = Ok false
  ∧ prune_old_tool_outputs [str_msg "system" "s"; malformed_tool_msg;
                            str_msg "user" "a"; str_msg "user" "b"] 2
    = Raise TypeError
  ∧ manage_context [str_msg "system" "s"; malformed_tool_msg;
                    str_msg "user" "a"; str_msg "user" "b"] "" failing_llm
                   false
    = Ok [str_msg "system" "s"; malformed_tool_msg;
          str_msg "user" "a"; str_msg "user" "b"].
Proof.
  assert (H : needs_compaction [str_msg "system" "s"; malformed_tool_msg;
                                str_msg "user" "a"; str_msg "user" "b"]
              = Ok false) by reflexivity.
  split; [exact H |]. split; [reflexivity |].
  exact (manage_context_fast_path _ "" failing_llm H).
Defined.

(** ** Estimates compose *)

Lemma for_each_app {I S} (body : I → S → result S) (l1 l2 : list I) (s : S) :
  for_each body (l1 ++ l2) s
  = do s' <- for_each body l1 s; for_each body l2 s'.
Proof.
  revert s. induction l1 as [|i l1 IH]; intros s; simpl; [done |].
  destruct (body i s); simpl; auto.
Qed.

(** A loop whose body never lowers the accumulator. *)
Lemma for_each_mono {I} (body : I → Z → result Z) (items : list I) :
  (∀ i acc r, body i acc = Ok r → (acc ≤ r)%Z) →
  ∀ acc r, for_each body items acc = Ok r → (acc ≤ r)%Z.
Proof.
  intros Hbody. induction items as [|i items IH]; intros acc r; simpl.
  - intros [= <-]. lia.
  - intros (s & Hs & Hr)%bind_ok. apply Hbody in Hs. apply IH in Hr. lia.
Qed.

Lemma for_each_shift {I} (body : I → Z → result Z) (items : list I) :
  (∀ i acc d, body i (acc + d)%Z
              = do r <- body i acc; Ok (r + d)%Z) →
  ∀ acc d, for_each body items (acc + d)%Z
           = do r <- for_each body items acc; Ok (r + d)%Z.
Proof.
  intros Hbody. induction items as [|i items IH]; intros acc d; simpl.
  - done.
  - rewrite Hbody. destruct (body i acc) as [r|e]; simpl; [| done].
    apply IH.
Qed.

Lemma estimate_tokens_nonneg (v : pyval) (e : Z) :
  estimate_tokens v = Ok e → (0 ≤ e)%Z.
Proof.
  intros [_ ->]%estimate_tokens_ok_inv. apply len_tokens_nonneg.
Qed.

Lemma content_part_tokens_mono (part : pyval) (acc r : Z) :
  content_part_tokens part acc = Ok r → (acc ≤ r)%Z.
Proof.
  destruct part as [| | | | |d]; simpl; try (intros [= <-]; lia).
  intros (t & Ht%estimate_tokens_nonneg & Hr)%bind_ok.
  destruct (py_eq_str _ _); injection Hr as <-; lia.
Qed.

Lemma tool_call_tokens_mono (tc : pyval) (acc r : Z) :
  tool_call_tokens tc acc = Ok r → (acc ≤ r)%Z.
Proof.
  unfold tool_call_tokens.
  intros (func & _ & H)%bind_ok.
  apply bind_ok in H as (name & _ & H).
  apply bind_ok in H as (n & Hn%estimate_tokens_nonneg & H).
  apply bind_ok in H as (args & _ & H).
  apply bind_ok in H as (a & Ha%estimate_tokens_nonneg & [= <-]).
  lia.
Qed.

Lemma estimate_message_tokens_overhead (msg : message) (t : Z) :
  estimate_message_tokens msg = Ok t → (4 ≤ t)%Z.
Proof.
  unfold estimate_message_tokens.
  intros (c & Hc & H)%bind_ok.
  apply bind_ok in H as (tcs & _ & H).
  apply bind_ok in H as (r & Hr & [= <-]).
  apply (for_each_mono _ _ tool_call_tokens_mono) in Hr.
  assert (0 ≤ c)%Z; [| lia].
  destruct (dict_get msg "content" PyNone) as [| | |s|parts|d];
    try (injection Hc as <-; lia).
  - apply bind_ok in Hc as (e & He%estimate_tokens_nonneg & [= <-]). lia.
  - by apply (for_each_mono _ _ content_part_tokens_mono) in Hc.
Qed.

Lemma estimate_total_tokens_shift (messages : list message) (acc : Z) :
  for_each (λ m a, do t <- estimate_message_tokens m; Ok (a + t)%Z)
           messages acc
  = do r <- estimate_total_tokens messages; Ok (r + acc)%Z.
Proof.
  unfold estimate_total_tokens.
  replace acc with (0 + acc)%Z at 1 by lia.
  apply for_each_shift. intros m a d.
  destruct (estimate_message_tokens m) as [t|e]; simpl; [| done].
  f_equal. lia.
Qed.

(** X3.  Estimates add up: the total of a concatenation is the sum of the
    totals of the parts (and raises when either part does); every message
    costs at least the overhead of 4 tokens, so a total is at least 4 times
    the number of messages. *)
Theorem estimate_total_tokens_additive (l1 l2 : list message) (t : Z) :
  estimate_total_tokens (l1 ++ l2) = Ok t →
  estimate_total_tokens (l1 ++ l2)
  = (do a <- estimate_total_tokens l1;
     do b <- estimate_total_tokens l2;
     Ok (a + b)%Z)
  ∧ (4 * Z.of_nat (length (l1 ++ l2)) ≤ t)%Z.
Proof.
  intros Ht. split.
  - unfold estimate_total_tokens at 1. rewrite for_each_app.
    fold (estimate_total_tokens l1).
    destruct (estimate_total_tokens l1) as [a|e]; simpl; [| done].
    rewrite estimate_total_tokens_shift.
    destruct (estimate_total_tokens l2) as [b|e]; simpl; [| done].
    f_equal. lia.
  - revert t Ht. generalize (l1 ++ l2). intros l.
    induction l as [|m l IH]; intros t Ht.
    + injection Ht as <-. simpl. lia.
    + unfold estimate_total_tokens in Ht. simpl in Ht.
      apply bind_ok in Ht as (s & Hs & Ht).
      apply bind_ok in Hs as (tm & Htm%estimate_message_tokens_overhead
                              & [= <-]).
      rewrite estimate_total_tokens_shift in Ht.
      apply bind_ok in Ht as (r & Hr%IH & [= <-]).
      simpl length. lia.
Qed.

Lemma estimate_total_tokens_additive_witness :
  estimate_total_tokens ([rich_msg] ++ [str_msg "user" "12345678"])
  = Ok 1016%Z
  ∧ estimate_total_tokens [rich_msg] = Ok 1010%Z
  ∧ estimate_total_tokens [str_msg "user" "12345678"] = Ok 6%Z.
Proof.
  assert (H : estimate_total_tokens ([rich_msg] ++ [str_msg "user" "12345678"])
              = Ok 1016%Z) by reflexivity.
  destruct (estimate_total_tokens_additive [rich_msg]
              [str_msg "user" "12345678"] 1016 H) as (Hadd & _).
  split; [exact H |]. split; reflexivity.
Defined.

(** ** What the pruner leaves alone *)

Lemma prune_ok_inv (messages p : list message) (plt : Z) :
  prune_old_tool_outputs messages plt = Ok p →
  ∃ st, prune_scan messages plt = Ok st
        ∧ p = if (pruned st <=? PRUNE_MINIMUM)%Z then messages
              else prune_commit messages (to_prune st).
Proof.
  unfold prune_old_tool_outputs. destruct messages as [|m l].
  - intros [= <-]. by exists scan_init.
  - intros (st & Hst & Hp)%bind_ok. exists st. split; [done |].
    destruct (_ <=? _)%Z; by injection Hp as <-.
Qed.

Lemma is_role_set_content (r : string) (m : message) (v : pyval) :
  is_role r (dict_set m "content" v) = is_role r m.
Proof.
  unfold is_role, dict_get. by rewrite dict_lookup_set_ne.
Qed.

Lemma user_not_tool (m : message) :
  is_role "user" m = true → is_role "tool" m = false.
Proof.
  unfold is_role, py_eq_str.
  destruct (dict_get m "role" PyNone) as [| | |s| |]; try done.
  by intros ->%String.eqb_eq.
Qed.

Lemma user_turns_drop_le (l : list message) (i : nat) :
  (user_turns (drop i l) ≤ user_turns l)%Z.
Proof.
  revert i. induction l as [|m l IH]; intros [|i]; simpl; try lia.
  rewrite user_turns_cons. specialize (IH i).
  destruct (is_role "user" m); lia.
Qed.

Lemma marked_not_in_window (messages : list message) (plt : Z) (i : nat)
    (m : message) :
  marked messages plt i m →
  is_role "tool" m = true ∧ is_sentinel m = false
  ∧ in_window messages plt i = false.
Proof. intros (H1 & H2 & H3 & _). done. Qed.

(** X4.  The pruner keeps the length of the history and changes no message
    that lies inside the last [protect_last_turns] user turns, that is not a
    tool message, or that is the sentinel already; a history with fewer user
    messages than [protect_last_turns] is returned as it is. *)
Theorem prune_protects_recent_turns (messages p : list message)
    (protect_last_turns : Z) :
  prune_old_tool_outputs messages protect_last_turns = Ok p →
  length p = length messages
  ∧ (∀ i m, messages !! i = Some m →
            in_window messages protect_last_turns i = true
            ∨ is_role "tool" m = false
            ∨ is_sentinel m = true →
            p !! i = Some m)
  ∧ ((user_turns messages < protect_last_turns)%Z → p = messages).
Proof.
  intros (st & Hst & ->)%prune_ok_inv.
  destruct (prune_scan_inv _ _ _ Hst) as (Hin & _).
  assert (Hkeep : ∀ i m, messages !! i = Some m →
            in_window messages protect_last_turns i = true
            ∨ is_role "tool" m = false
            ∨ is_sentinel m = true →
            prune_commit messages (to_prune st) !! i = Some m).
  { intros i m Hm Hcase. rewrite prune_commit_lookup_out; [done |].
    intros (m' & Hm' & Hmk%marked_not_in_window)%Hin.
    assert (m' = m) as -> by congruence.
    destruct Hmk as (Ht & Hs & Hw).
    destruct Hcase as [?|[?|?]]; congruence. }
  destruct (pruned st <=? PRUNE_MINIMUM)%Z; [done |].
  split; [apply prune_commit_length |]. split; [done |].
  intros Hfew. apply list_eq. intros i.
  destruct (messages !! i) as [m|] eqn:Hm.
  - apply Hkeep; [done |]. left. unfold in_window.
    pose proof (user_turns_drop_le messages i). apply Z.ltb_lt. lia.
  - apply lookup_ge_None. rewrite prune_commit_length.
    by apply lookup_ge_None.
Qed.

Lemma prune_protects_recent_turns_witness :
  prune_old_tool_outputs stale_tool_history 2
  = Ok (prune_commit stale_tool_history [3])
  ∧ in_window stale_tool_history 2 5 = true
  ∧ prune_commit stale_tool_history [3] !! 5
    = Some (str_msg "user" "And once more.")
  ∧ prune_commit stale_tool_history [3] !! 2
    = Some (str_msg "assistant" "Running the build.").
Proof.
  assert (Hst : prune_scan stale_tool_history 2
                = Ok (mk_scan 42500 42500 [3] 3)) by (vm_compute; reflexivity).
  assert (Hp : prune_old_tool_outputs stale_tool_history 2
               = Ok (prune_commit stale_tool_history [3])).
  { rewrite (prune_old_tool_outputs_eq _ _ _ Hst). reflexivity. }
  assert (Hw : in_window stale_tool_history 2 5 = true) by reflexivity.
  destruct (prune_protects_recent_turns _ _ _ Hp) as (_ & Hkeep & _).
  split; [exact Hp |]. split; [exact Hw |]. split.
  - apply (Hkeep 5); [reflexivity | by left].
  - apply (Hkeep 2); [reflexivity | right; left; reflexivity].
Defined.

(** ** Pruning twice *)

Lemma content_ok_set_content (m : message) (s : string) :
  content_ok (dict_set m "content" (PyStr s)) = true.
Proof.
  unfold content_ok, msg_content, dict_get.
  rewrite dict_lookup_set_eq. apply orb_true_r.
Qed.

Lemma prune_commit_content_ok (messages : list message) (tp : list nat) :
  forallb content_ok messages = true →
  forallb content_ok (prune_commit messages tp) = true.
Proof.
  rewrite !forallb_forall. intros Hok x Hx%list_elem_of_In.
  apply list_elem_of_lookup in Hx as (i & Hi).
  unfold prune_commit in Hi. rewrite list_lookup_imap in Hi.
  destruct (messages !! i) as [m|] eqn:Em; [| done].
  simpl in Hi. injection Hi as <-.
  destruct (bool_decide _); [apply content_ok_set_content |].
  apply Hok, list_elem_of_In, list_elem_of_lookup. eauto.
Qed.

(** Rewriting messages without changing who wrote them keeps the turns. *)
Lemma user_turns_drop_imap (f : nat → message → message)
    (l : list message) :
  (∀ i m, is_role "user" (f i m) = is_role "user" m) →
  ∀ j, user_turns (drop j (imap f l)) = user_turns (drop j l).
Proof.
  revert f. induction l as [|m l IH]; intros f Hf j.
  - by destruct j.
  - destruct j as [|j].
    + cbn [drop imap]. rewrite !user_turns_cons, Hf.
      specialize (IH (f ∘ S) (λ i x, Hf (S i) x) 0).
      rewrite !drop_0 in IH. by rewrite IH.
    + cbn [drop imap]. apply (IH (f ∘ S) (λ i x, Hf (S i) x)).
Qed.

Lemma user_turns_drop_commit (messages : list message) (tp : list nat)
    (j : nat) :
  user_turns (drop j (prune_commit messages tp))
  = user_turns (drop j messages).
Proof.
  unfold prune_commit. apply user_turns_drop_imap. intros i m.
  destruct (bool_decide _); [apply is_role_set_content | done].
Qed.

(** A sentinel tool message outside the protected turns stops the scan of
    every list it occurs in. *)
Lemma halts_in_lookup (plt : Z) (l : list message) (k : nat) (m : message) :
  l !! k = Some m →
  is_role "tool" m = true →
  is_sentinel m = true →
  (plt ≤ user_turns (drop k l))%Z →
  halts_in plt l = true.
Proof.
  revert k. induction l as [|x l IH]; intros [|k] Hm Ht Hs Hout;
    try done.
  - injection Hm as ->. by apply halts_in_sentinel.
  - cbn [halts_in]. rewrite (IH k Hm Ht Hs Hout). apply orb_true_r.
Qed.

Lemma drop_commit_above (messages : list message) (tp : list nat) (j : nat) :
  (∀ i, i ∈ tp → i < j) →
  drop j (prune_commit messages tp) = drop j messages.
Proof.
  intros Hlt. apply list_eq. intros k. rewrite !lookup_drop.
  apply prune_commit_lookup_out. intros Hin%Hlt. lia.
Qed.

Lemma marked_drop_eq (l1 l2 : list message) (plt : Z) (j : nat)
    (m : message) :
  drop j l1 = drop j l2 → marked l1 plt j m → marked l2 plt j m.
Proof.
  intros Heq (Ht & Hs & Hw & Hv & Hp).
  assert (Heq' : drop (S j) l1 = drop (S j) l2).
  { replace (S j) with (j + 1) by lia. by rewrite <- !drop_drop, Heq. }
  unfold marked, in_window, visited, seen in *.
  rewrite <- Heq, <- Heq'. done.
Qed.

(** After a committed pruning the scan marks nothing. *)
Lemma prune_scan_after_commit (messages : list message) (plt : Z)
    (st st' : scan_state) :
  prune_scan messages plt = Ok st →
  prune_scan (prune_commit messages (to_prune st)) plt = Ok st' →
  to_prune st' = [] ∧ pruned st' = 0%Z.
Proof.
  intros Hst Hst'.
  destruct (prune_scan_inv _ _ _ Hst) as (Hin & _).
  destruct (prune_scan_inv _ _ _ Hst') as (Hin' & _ & Hsum').
  assert (Hnil : to_prune st' = []); [| by rewrite Hsum', Hnil].
  destruct (to_prune st') as [|j rest] eqn:Etp; [done | exfalso].
  destruct (proj1 (Hin' j) ltac:(left)) as (m' & Hm' & Hmk').
  destruct (decide (Exists (λ i, j < i) (to_prune st))) as [Hex|Hnex].
  - (* a newer message was cleared: the scan stops there *)
    apply Exists_exists in Hex as (i & Hi & Hji).
    destruct (proj1 (Hin i) Hi) as (mi & Hmi & Ht & _ & Hw & _).
    destruct Hmk' as (_ & _ & _ & Hv & _).
    unfold visited in Hv. apply negb_true_iff in Hv.
    rewrite (halts_in_lookup plt _ (i - S j)
               (dict_set mi "content" (PyStr PRUNE_MARKER))) in Hv;
      [done | | | |].
    + rewrite lookup_drop. replace (S j + (i - S j)) with i by lia.
      by apply prune_commit_lookup_in.
    + by rewrite is_role_set_content.
    + apply is_sentinel_set.
    + rewrite drop_drop. replace (S j + (i - S j)) with i by lia.
      rewrite user_turns_drop_commit.
      unfold in_window in Hw. apply Z.ltb_ge in Hw. done.
  - (* nothing newer was cleared: the scan sees what it saw before *)
    assert (Hlt : ∀ i, i ∈ to_prune st → i ≤ j).
    { intros i Hi. destruct (decide (i ≤ j)) as [|Hgt]; [done |].
      exfalso. apply Hnex, Exists_exists. exists i. split; [done | lia]. }
    destruct (decide (j ∈ to_prune st)) as [Hj|Hj].
    + destruct (proj1 (Hin j) Hj) as (m & Hm & _).
      rewrite (prune_commit_lookup_in _ _ _ _ Hm Hj) in Hm'.
      injection Hm' as <-.
      destruct Hmk' as (_ & Hs & _). by rewrite is_sentinel_set in Hs.
    + assert (Hdrop : drop j (prune_commit messages (to_prune st))
                      = drop j messages).
      { apply drop_commit_above. intros i Hi.
        specialize (Hlt i Hi).
        assert (i ≠ j) by (intros ->; done). lia. }
      apply Hj, Hin. exists m'. split.
      * by rewrite prune_commit_lookup_out in Hm'.
      * by apply (marked_drop_eq _ _ _ _ _ Hdrop).
Qed.

(** X5.  Pruning is idempotent: on a history whose tool contents the
    estimator accepts, pruning the pruned history returns it unchanged. *)
Theorem prune_twice (messages : list message) (protect_last_turns : Z) :
  forallb content_ok messages = true →
  ∃ p, prune_old_tool_outputs messages protect_last_turns = Ok p
       ∧ prune_old_tool_outputs p protect_last_turns = Ok p.
Proof.
  intros Hok.
  destruct (prune_scan_total messages protect_last_turns Hok) as (st & Hst).
  pose proof (prune_old_tool_outputs_eq _ _ _ Hst) as Hp.
  destruct (pruned st <=? PRUNE_MINIMUM)%Z.
  { exists messages. done. }
  exists (prune_commit messages (to_prune st)). split; [done |].
  destruct (prune_scan_total _ protect_last_turns
              (prune_commit_content_ok _ (to_prune st) Hok)) as (st' & Hst').
  destruct (prune_scan_after_commit _ _ _ _ Hst Hst') as (_ & Hzero).
  rewrite (prune_old_tool_outputs_eq _ _ _ Hst'), Hzero. done.
Qed.

Lemma prune_twice_witness :
  forallb content_ok stale_tool_history = true
  ∧ prune_old_tool_outputs stale_tool_history 2
    = Ok (prune_commit stale_tool_history [3])
  ∧ prune_old_tool_outputs (prune_commit stale_tool_history [3]) 2
    = Ok (prune_commit stale_tool_history [3]).
Proof.
  assert (Hok : forallb content_ok stale_tool_history = true)
    by (vm_compute; reflexivity).
  assert (Hst : prune_scan stale_tool_history 2
                = Ok (mk_scan 42500 42500 [3] 3)) by (vm_compute; reflexivity).
  assert (Hp : prune_old_tool_outputs stale_tool_history 2
               = Ok (prune_commit stale_tool_history [3])).
  { rewrite (prune_old_tool_outputs_eq _ _ _ Hst). reflexivity. }
  destruct (prune_twice stale_tool_history 2 Hok) as (p & Hp1 & Hp2).
  split; [exact Hok |]. split; [exact Hp |].
  rewrite Hp in Hp1. injection Hp1 as <-. exact Hp2.
Defined.

(** ** What compaction returns *)

Lemma Zsum_take_drop (f : message → Z) (l : list message) (k : nat) :
  Zsum (map f l) = (Zsum (map f (take k l)) + Zsum (map f (drop k l)))%Z.
Proof. by rewrite <- Zsum_app, <- map_app, take_drop. Qed.

Lemma default_target_tokens :
  py_int (inject_Z get_usable_context * (75 # 100)) = 5250%Z.
Proof. reflexivity. Qed.

(** The list [run_compaction] builds: the first two messages and everything
    after the [count] messages that follow them. *)
Lemma compacted_shape (messages : list message) (count : nat) :
  count = 0 ∨ count + 4 ≤ length messages →
  let r := take 2 messages ++ drop (2 + count) messages in
  length r = length messages - count
  ∧ r `sublist_of` messages
  ∧ take 2 r = take 2 messages
  ∧ drop (length r - 2) r = drop (length messages - 2) messages.
Proof.
  intros Hc r.
  assert (Hsub : r `sublist_of` messages).
  { unfold r. rewrite <- (take_drop 2 messages) at 3.
    apply sublist_app; [done |].
    rewrite <- drop_drop. apply sublist_drop. }
  destruct Hc as [->|Hc].
  { unfold r. rewrite Nat.add_0_r, take_drop, Nat.sub_0_r. done. }
  assert (Hlen : length r = length messages - count).
  { unfold r. rewrite length_app, length_take, length_drop. lia. }
  split; [done |]. split; [done |]. split.
  - unfold r. apply take_app_length'. rewrite length_take. lia.
  - rewrite Hlen. unfold r.
    rewrite drop_app_ge by (rewrite length_take; lia).
    rewrite length_take, drop_drop. f_equal. lia.
Qed.

Lemma run_compaction_shape_aux (llm : LLMClient) (messages : list message)
    (system_prompt : string) (model : option string) (tgt : option Z) :
  forallb message_ok messages = true →
  ∃ count,
    run_compaction llm messages system_prompt model tgt
    = Ok (take 2 messages ++ drop (2 + count) messages)
    ∧ (count = 0 ∨ count + 4 ≤ length messages).
Proof.
  intros Hok.
  destruct (planner_result messages
              (match tgt with
               | None => py_int (inject_Z get_usable_context * (75 # 100))
               | Some t => t
               end) Hok) as (start & count & Hplan & _ & _).
  destruct (run_compaction_planned llm messages system_prompt model tgt
              start count Hok Hplan) as (Hrun & _ & Hlen).
  exists (Z.to_nat count). rewrite Hrun.
  destruct (Z.eqb_spec count 0) as [->|Hne].
  - simpl. rewrite take_drop. split; [done | by left].
  - split; [done |]. right. by apply Hlen.
Qed.

(** X6.  On a well-formed history [run_compaction] only cuts: for some
    [count] it returns the first two messages followed by the messages from
    index [2 + count] on.  The result is a sublist of the input, shorter by
    [count], with the same first two and the same last two messages. *)
Theorem run_compaction_shape (llm : LLMClient) (messages : list message)
    (system_prompt : string) (model : option string)
    (target_tokens : option Z) :
  forallb message_ok messages = true →
  ∃ r count,
    run_compaction llm messages system_prompt model target_tokens = Ok r
    ∧ r = take 2 messages ++ drop (2 + count) messages
    ∧ length r = length messages - count
    ∧ r `sublist_of` messages
    ∧ take 2 r = take 2 messages
    ∧ drop (length r - 2) r = drop (length messages - 2) messages.
Proof.
  intros Hok.
  destruct (run_compaction_shape_aux llm messages system_prompt model
              target_tokens Hok) as (count & Hrun & Hc).
  exists (take 2 messages ++ drop (2 + count) messages), count.
  split; [done |]. split; [done |]. by apply compacted_shape.
Qed.

Lemma run_compaction_shape_witness :
  forallb message_ok overflowing_pruned = true
  ∧ ∃ r, run_compaction failing_llm overflowing_pruned "" None None = Ok r
         ∧ length r = 5
         ∧ drop 3 r = drop 7 overflowing_pruned.
Proof.
  assert (Hok : forallb message_ok overflowing_pruned = true)
    by (vm_compute; reflexivity).
  split; [exact Hok |].
  destruct (run_compaction_shape failing_llm overflowing_pruned "" None None
              Hok) as (r & count & Hrun & _ & _ & _ & _ & Htail).
  exists r. split; [exact Hrun |].
  assert (Hr : run_compaction failing_llm overflowing_pruned "" None None
               = Ok (take 2 overflowing_pruned ++ drop 6 overflowing_pruned))
    by (vm_compute; reflexivity).
  rewrite Hr in Hrun. injection Hrun as <-.
  split; [reflexivity | exact Htail].
Defined.

(** X7.  When the planned count stays below its cap (it leaves more than two
    compactable messages), the compacted history fits the budget the planner
    aimed at: its estimate is at most the target minus the 2000 tokens set
    aside for a summary. *)
Theorem run_compaction_fits_budget (llm : LLMClient)
    (messages : list message) (system_prompt : string)
    (model : option string) (target_tokens start count : Z) :
  forallb message_ok messages = true →
  _find_messages_to_compact messages target_tokens = Ok (start, count) →
  (0 < count)%Z →
  Z.to_nat count + 4 < length messages →
  ∃ r total,
    run_compaction llm messages system_prompt model (Some target_tokens)
    = Ok r
    ∧ estimate_total_tokens r = Ok total
    ∧ (total ≤ target_tokens - SUMMARY_TOKEN_ESTIMATE)%Z.
Proof.
  intros Hok Hplan Hpos Hcap.
  destruct (run_compaction_planned llm messages system_prompt model
              (Some target_tokens) start count Hok Hplan) as (Hrun & _ & _).
  destruct (Z.eqb_spec count 0) as [|_]; [lia |].
  assert (Hrok : forallb message_ok
                   (take 2 messages ++ drop (2 + Z.to_nat count) messages)
                 = true).
  { rewrite forallb_app, forallb_take, forallb_drop; done. }
  eexists _, _. split; [exact Hrun |].
  split; [by apply estimate_total_tokens_ok |].
  pose proof (planner_contract messages target_tokens Hok) as H.
  cbv zeta in H.
  destruct H as (s & c & E & Hnoop & Hfull & Hwalk & Hrange).
  rewrite Hplan in E. injection E as <- <-.
  change PROTECTED_MESSAGE_COUNT with 2 in *.
  set (pt := Zsum (map message_tokens (take 2 messages))) in *.
  set (ct := Zsum (map message_tokens (drop 2 messages))) in *.
  assert (Hn : Z.of_nat (length (drop 2 messages))
               = (Z.of_nat (length messages) - 2)%Z)
    by (rewrite length_drop; lia).
  rewrite Hn in *.
  destruct (Z.le_gt_cases (pt + ct) target_tokens) as [H1|H1]; [lia |].
  destruct (Z.le_gt_cases (target_tokens - pt - SUMMARY_TOKEN_ESTIMATE) 0)
    as [H3|H3].
  { destruct Hfull as [_ Hc]; lia. }
  destruct (Z.le_gt_cases (ct - (target_tokens - pt - SUMMARY_TOKEN_ESTIMATE))
              0) as [H4|H4]; [lia |].
  destruct Hwalk as (_ & k & (Hk1 & _ & Hreach) & Hc); [lia | lia | lia | lia |].
  assert (Hck : Z.to_nat count = k) by lia.
  destruct Hreach as [Hreach | Hall];
    [| rewrite length_drop in Hall; lia].
  rewrite map_app, Zsum_app. fold pt.
  rewrite <- drop_drop, Hck.
  unfold prefix_tokens in Hreach.
  pose proof (Zsum_take_drop message_tokens (drop 2 messages) k) as Hsplit.
  fold ct in Hsplit. lia.
Qed.

Lemma run_compaction_fits_budget_witness :
  forallb message_ok (long_history 10 4000) = true
  ∧ _find_messages_to_compact (long_history 10 4000) 7055 = Ok (2, 5)%Z
  ∧ ∃ r total,
      run_compaction failing_llm (long_history 10 4000) "" None (Some 7055%Z)
      = Ok r
      ∧ estimate_total_tokens r = Ok total
      ∧ (total ≤ 5055)%Z.
Proof.
  assert (Hok : forallb message_ok (long_history 10 4000) = true)
    by (vm_compute; reflexivity).
  assert (Hplan : _find_messages_to_compact (long_history 10 4000) 7055
                  = Ok (2, 5)%Z) by (vm_compute; reflexivity).
  split; [exact Hok |]. split; [exact Hplan |].
  apply (run_compaction_fits_budget failing_llm (long_history 10 4000) ""
           None 7055 2 5 Hok Hplan); [lia |].
  vm_compute. lia.
Defined.

(** ** The last two messages *)

Lemma user_turns_le_length (l : list message) :
  (user_turns l ≤ Z.of_nat (length l))%Z.
Proof.
  induction l as [|m l IH]; [done |].
  rewrite user_turns_cons. simpl length. destruct (is_role "user" m); lia.
Qed.

(** Each of the last two messages is inside the last two user turns or is
    not a tool message. *)
Lemma last_two_protected (messages : list message) (i : nat) (m : message) :
  messages !! i = Some m →
  length messages ≤ i + 2 →
  in_window messages 2 i = true ∨ is_role "tool" m = false.
Proof.
  intros Hm Hlen. unfold in_window.
  rewrite (drop_S _ _ _ Hm), user_turns_cons.
  pose proof (user_turns_le_length (drop (S i) messages)) as Hrest.
  rewrite length_drop in Hrest.
  destruct (is_role "user" m) eqn:Eu.
  - right. by apply user_not_tool.
  - left. apply Z.ltb_lt. lia.
Qed.

Lemma prune_tail (messages p : list message) :
  prune_old_tool_outputs messages 2 = Ok p →
  length p = length messages
  ∧ drop (length messages - 2) p = drop (length messages - 2) messages.
Proof.
  intros (st & Hst & ->)%prune_ok_inv.
  destruct (pruned st <=? PRUNE_MINIMUM)%Z; [done |].
  split; [apply prune_commit_length |].
  apply list_eq. intros k. rewrite !lookup_drop.
  apply prune_commit_lookup_out. intros Hin.
  destruct (prune_scan_inv _ _ _ Hst) as (Hmarks & _).
  apply Hmarks in Hin as (m & Hm & Ht & _ & Hw & _).
  apply lookup_lt_Some in Hm as Hlt.
  destruct (last_two_protected messages _ m Hm) as [?|?]; [lia | |];
    congruence.
Qed.

Lemma prune_message_ok (messages p : list message) (plt : Z) :
  forallb message_ok messages = true →
  prune_old_tool_outputs messages plt = Ok p →
  forallb message_ok p = true.
Proof.
  intros Hok (st & _ & ->)%prune_ok_inv.
  destruct (_ <=? _)%Z; [done | by apply prune_commit_message_ok].
Qed.

(** X8.  [manage_context] never lengthens a well-formed history and never
    touches its last two messages: the result ends with the same two
    messages as the input, whether it was pruned, compacted, or both. *)
Theorem manage_context_keeps_tail (messages : list message)
    (system_prompt : string) (llm : LLMClient) (force_compaction : bool) :
  forallb message_ok messages = true →
  forallb content_ok messages = true →
  ∃ r, manage_context messages system_prompt llm force_compaction = Ok r
       ∧ length r ≤ length messages
       ∧ drop (length r - 2) r = drop (length messages - 2) messages.
Proof.
  intros Hok Hcontent.
  destruct (prune_result messages 2 Hok Hcontent) as (p & Hp & Hpok & _).
  destruct (prune_tail messages p Hp) as (Hplen & Hptail).
  unfold manage_context.
  rewrite (estimate_total_tokens_ok _ Hok). cbn [PyMonad.bind].
  destruct (negb force_compaction && _); [by eexists |].
  rewrite Hp. cbn [PyMonad.bind].
  rewrite (estimate_total_tokens_ok _ Hpok). cbn [PyMonad.bind].
  destruct (_ && negb force_compaction).
  { exists p. rewrite Hplen. split; [done |]. split; [done |]. done. }
  destruct (run_compaction_shape_aux llm p system_prompt None None Hpok)
    as (count & Hrun & Hc).
  destruct (compacted_shape p count Hc) as (Hlen & _ & _ & Htail).
  rewrite Hrun. cbn [PyMonad.bind].
  rewrite estimate_total_tokens_ok
    by (rewrite forallb_app, forallb_take, forallb_drop; done).
  cbn [PyMonad.bind]. eexists. split; [done |].
  rewrite Hlen, Hplen in *. split; [lia |].
  by rewrite Htail.
Qed.

Lemma manage_context_keeps_tail_witness :
  forallb message_ok overflowing_history = true
  ∧ forallb content_ok overflowing_history = true
  ∧ ∃ r, manage_context overflowing_history "" failing_llm false = Ok r
         ∧ length r = 5
         ∧ drop 3 r = [str_msg "user" "Try again.";
                       str_msg "user" "And once more."].
Proof.
  assert (Hok : forallb message_ok overflowing_history = true)
    by (vm_compute; reflexivity).
  assert (Hcontent : forallb content_ok overflowing_history = true)
    by (vm_compute; reflexivity).
  split; [exact Hok |]. split; [exact Hcontent |].
  destruct (manage_context_keeps_tail overflowing_history "" failing_llm
              false Hok Hcontent) as (r & Hr & _ & Htail).
  exists r. split; [exact Hr |].
  assert (Hlen : length r = 5).
  { vm_compute in Hr. injection Hr as <-. reflexivity. }
  split; [exact Hlen |]. rewrite Hlen in Htail. exact Htail.
Defined.

(** ** Forcing compaction *)

(** X9.  [force_compaction] skips the fast path but not the planner: when
    the pruned history is estimated at no more than 5250 tokens, or the
    history has at most 4 messages, a forced [manage_context] returns the
    pruned history and cuts nothing. *)
Theorem manage_context_forced_noop (messages p : list message)
    (system_prompt : string) (llm : LLMClient) :
  forallb message_ok messages = true →
  prune_old_tool_outputs messages 2 = Ok p →
  (Zsum (map message_tokens p) ≤ 5250)%Z ∨ length messages ≤ 4 →
  manage_context messages system_prompt llm true = Ok p.
Proof.
  intros Hok Hp Hsmall.
  pose proof (prune_message_ok _ _ _ Hok Hp) as Hpok.
  destruct (prune_ok_inv _ _ _ Hp) as (st & _ & Hpeq).
  assert (Hplen : length p = length messages).
  { rewrite Hpeq. destruct (_ <=? _)%Z; [done | apply prune_commit_length]. }
  unfold manage_context.
  rewrite (estimate_total_tokens_ok _ Hok). cbn [PyMonad.bind negb andb].
  rewrite Hp. cbn [PyMonad.bind].
  rewrite (estimate_total_tokens_ok _ Hpok). cbn [PyMonad.bind negb].
  rewrite andb_false_r.
  pose proof (planner_contract p 5250 Hpok) as H. cbv zeta in H.
  destruct H as (start & count & Hplan & Hnoop & _).
  assert (Hcount : count = 0%Z).
  { apply Hnoop. destruct Hsmall as [Htok|Hlen].
    - left. change PROTECTED_MESSAGE_COUNT with 2.
      rewrite <- (Zsum_take_drop message_tokens p 2). done.
    - right. left. rewrite length_drop.
      unfold PROTECTED_MESSAGE_COUNT. lia. }
  subst count.
  destruct (run_compaction_planned llm p system_prompt None None start 0%Z
              Hpok Hplan) as (Hrun & _).
  rewrite Hrun. cbn [PyMonad.bind Z.eqb].
  by rewrite (estimate_total_tokens_ok _ Hpok).
Qed.

Lemma manage_context_forced_noop_witness :
  forallb message_ok stale_tool_history = true
  ∧ prune_old_tool_outputs stale_tool_history 2
    = Ok (prune_commit stale_tool_history [3])
  ∧ manage_context stale_tool_history "" failing_llm true
    = Ok (prune_commit stale_tool_history [3]).
Proof.
  assert (Hok : forallb message_ok stale_tool_history = true)
    by (vm_compute; reflexivity).
  assert (Hst : prune_scan stale_tool_history 2
                = Ok (mk_scan 42500 42500 [3] 3)) by (vm_compute; reflexivity).
  assert (Hp : prune_old_tool_outputs stale_tool_history 2
               = Ok (prune_commit stale_tool_history [3])).
  { rewrite (prune_old_tool_outputs_eq _ _ _ Hst). reflexivity. }
  split; [exact Hok |]. split; [exact Hp |].
  apply (manage_context_forced_noop _ _ "" failing_llm Hok Hp).
  left. vm_compute. discriminate.
Defined.

(** ** The planner and its target *)

(** X10.  A larger target never plans a larger cut: on a well-formed
    history the planned count is antitone in the target. *)
Theorem planner_antitone (messages : list message)
    (t1 t2 s1 c1 s2 c2 : Z) :
  forallb message_ok messages = true →
  (t1 ≤ t2)%Z →
  _find_messages_to_compact messages t1 = Ok (s1, c1) →
  _find_messages_to_compact messages t2 = Ok (s2, c2) →
  (c2 ≤ c1)%Z.
Proof.
  intros Hok Hle Hp1 Hp2.
  pose proof (planner_contract messages t1 Hok) as H1. cbv zeta in H1.
  destruct H1 as (s & c & E & Hnoop1 & Hfull1 & Hwalk1 & Hrange1).
  rewrite Hp1 in E. injection E as <- <-.
  pose proof (planner_contract messages t2 Hok) as H2. cbv zeta in H2.
  destruct H2 as (s & c & E & Hnoop2 & Hfull2 & Hwalk2 & Hrange2).
  rewrite Hp2 in E. injection E as <- <-.
  set (pt := Zsum (map message_tokens (take PROTECTED_MESSAGE_COUNT messages)))
    in *.
  set (ct := Zsum (map message_tokens (drop PROTECTED_MESSAGE_COUNT messages)))
    in *.
  set (n := Z.of_nat (length (drop PROTECTED_MESSAGE_COUNT messages))) in *.
  set (E := SUMMARY_TOKEN_ESTIMATE) in *.
  destruct (Z.le_gt_cases (pt + ct) t2) as [Ht|Ht]; [lia |].
  destruct (Z.le_gt_cases n 2) as [Hn|Hn]; [lia |].
  destruct (Z.le_gt_cases (ct - (t2 - pt - E)) 0) as [Hr2|Hr2]; [lia |].
  destruct (Z.le_gt_cases (t1 - pt - E) 0) as [Hk1|Hk1].
  { destruct Hfull1 as [_ ->]; lia. }
  destruct Hwalk1 as (_ & k1 & (Hk1a & Hk1b & Hk1c) & ->); [lia | lia | lia | lia |].
  destruct (Z.le_gt_cases (t2 - pt - E) 0) as [Hk2|Hk2]; [lia |].
  destruct Hwalk2 as (_ & k2 & (Hk2a & Hk2b & Hk2c) & ->); [lia | lia | lia | lia |].
  assert (k2 ≤ k1); [| lia].
  destruct (decide (k2 ≤ k1)) as [|Hgt]; [done | exfalso].
  specialize (Hk2b k1 ltac:(lia)).
  destruct Hk1c as [Hreach | ->]; lia.
Qed.

Lemma planner_antitone_witness :
  forallb message_ok (long_history 10 4000) = true
  ∧ (1500 ≤ 7055)%Z
  ∧ _find_messages_to_compact (long_history 10 4000) 1500 = Ok (2, 8)%Z
  ∧ _find_messages_to_compact (long_history 10 4000) 7055 = Ok (2, 5)%Z
  ∧ (5 ≤ 8)%Z.
Proof.
  assert (Hok : forallb message_ok (long_history 10 4000) = true)
    by (vm_compute; reflexivity).
  assert (Hle : (1500 ≤ 7055)%Z) by lia.
  assert (H1 : _find_messages_to_compact (long_history 10 4000) 1500
               = Ok (2, 8)%Z) by (vm_compute; reflexivity).
  assert (H2 : _find_messages_to_compact (long_history 10 4000) 7055
               = Ok (2, 5)%Z) by (vm_compute; reflexivity).
  split; [exact Hok |]. split; [exact Hle |].
  split; [exact H1 |]. split; [exact H2 |].
  exact (planner_antitone _ _ _ _ _ _ _ Hok Hle H1 H2).
Defined.

(** ** When the pruner raises *)

Lemma estimate_tokens_raise (v : pyval) :
  sized_or_falsy v = false → estimate_tokens v = Raise TypeError.
Proof.
  destruct v as [|b|n| | |]; try discriminate; simpl.
  - by intros ->%negb_false_iff.
  - intros Hn. unfold estimate_tokens, py_or. simpl. by rewrite Hn.
Qed.

Lemma estimate_tokens_raise_inv (v : pyval) (e : py_exn) :
  estimate_tokens v = Raise e → e = TypeError ∧ sized_or_falsy v = false.
Proof.
  destruct (sized_or_falsy v) eqn:E.
  - by rewrite (estimate_tokens_sized _ E).
  - rewrite (estimate_tokens_raise _ E). by intros [= <-].
Qed.

(** The scan of a suffix raises exactly when it meets a tool message it has
    to estimate whose content has no length. *)
Lemma scan_suffix_raise (plt : Z) (l : list message) :
  ∀ i e,
    scan_suffix plt i l = Raise e ↔
    e = TypeError
    ∧ ∃ k m, l !! k = Some m
             ∧ is_role "tool" m = true
             ∧ is_sentinel m = false
             ∧ in_window l plt k = false
             ∧ visited l plt k = true
             ∧ sized_or_falsy (msg_content m) = false.
Proof.
  induction l as [|m0 l IH]; intros i e.
  { split; [done |]. intros (_ & k & m & Hm & _). by destruct k. }
  cbn [scan_suffix].
  destruct (scan_suffix plt (S i) l) as [[st|st]|e'] eqn:E;
    cbn [PyMonad.bind].
  - (* the newer messages were scanned to the end *)
    destruct (scan_suffix_inv plt l (S i) _ E)
      as ((Hhalt & Hturns & _) & _).
    rewrite scan_visit_unfold. cbn zeta.
    rewrite Hturns, <- user_turns_cons.
    assert (Hw : in_window (m0 :: l) plt 0
                 = (user_turns (m0 :: l) <? plt)%Z) by reflexivity.
    assert (Hv : visited (m0 :: l) plt 0 = true).
    { unfold visited. change (drop 1 (m0 :: l)) with l. by rewrite Hhalt. }
    assert (Hnone : ∀ k m, l !! k = Some m →
                           visited l plt k = true →
                           is_role "tool" m = true →
                           is_sentinel m = false →
                           in_window l plt k = false →
                           sized_or_falsy (msg_content m) = false → False).
    { intros k m Hm Hvk Ht Hs Hwk Hz.
      assert (Hr : scan_suffix plt (S i) l = Raise TypeError).
      { apply IH. split; [done |]. exists k, m. done. }
      congruence. }
    split.
    + intros Hraise. rewrite <- Hw in Hraise.
      destruct (in_window (m0 :: l) plt 0) eqn:Ew; [done |].
      destruct (is_role "tool" m0) eqn:Et; [| done].
      destruct (is_sentinel m0) eqn:Es; [done |].
      destruct (estimate_tokens (msg_content m0)) as [t|e0] eqn:Ee.
      { cbn [PyMonad.bind] in Hraise.
        by destruct (PRUNE_PROTECT <? total st + t)%Z. }
      injection Hraise as <-.
      apply estimate_tokens_raise_inv in Ee as [-> Hz].
      split; [done |]. exists 0, m0. done.
    + intros (-> & k & m & Hm & Ht & Hs & Hwk & Hvk & Hz).
      destruct k as [|k]; [| exfalso; by eapply (Hnone k m)].
      injection Hm as ->. rewrite Hw in Hwk.
      rewrite Hwk, Ht, Hs, (estimate_tokens_raise _ Hz). done.
  - (* the scan had stopped *)
    destruct (scan_suffix_inv plt l (S i) _ E) as (Hhalt & _).
    split; [done |].
    intros (-> & k & m & Hm & Ht & Hs & Hwk & Hvk & Hz). exfalso.
    destruct k as [|k].
    + unfold visited in Hvk. change (drop 1 (m0 :: l)) with l in Hvk.
      by rewrite Hhalt in Hvk.
    + assert (Hr : scan_suffix plt (S i) l = Raise TypeError).
      { apply IH. split; [done |]. exists k, m. done. }
      congruence.
  - (* the scan had raised *)
    apply IH in E as E'. destruct E' as (-> & k & m & Hk).
    split.
    + intros [= <-]. split; [done |]. exists (S k), m. done.
    + by intros (-> & _).
Qed.

(** X11.  The pruner raises only [TypeError], and exactly when the scan
    reaches a tool message outside the protected turns that is not the
    sentinel and whose content has no length and is not false (a non-zero
    number or [True]).  Such a content in a message the scan does not reach,
    or inside the protected turns, raises nothing. *)
Theorem prune_raises_exactly (messages : list message)
    (protect_last_turns : Z) (e : py_exn) :
  prune_old_tool_outputs messages protect_last_turns = Raise e ↔
  e = TypeError
  ∧ ∃ i m, messages !! i = Some m
           ∧ is_role "tool" m = true
           ∧ is_sentinel m = false
           ∧ in_window messages protect_last_turns i = false
           ∧ visited messages protect_last_turns i = true
           ∧ sized_or_falsy (msg_content m) = false.
Proof.
  rewrite <- (scan_suffix_raise protect_last_turns messages 0 e).
  unfold prune_old_tool_outputs. destruct messages as [|m l]; [done |].
  rewrite prune_scan_suffix.
  destruct (scan_suffix protect_last_turns 0 (m :: l)) as [c|e'];
    cbn [PyMonad.bind].
  - split; [| done]. by destruct (_ <=? _)%Z.
  - split; by intros [= <-].
Qed.

(** ** The shape of the evicted set *)

Lemma seen_tokens_app_ge (plt : Z) (l1 l2 : list message) :
  (seen_tokens plt l2 ≤ seen_tokens plt (l1 ++ l2))%Z.
Proof.
  induction l1 as [|m l1 IH]; [done |].
  cbn [app seen_tokens].
  pose proof (len_tokens_nonneg (msg_content m)).
  destruct (_ && _); lia.
Qed.

(** X12.  The evicted tool messages are the oldest ones: when the scan
    marks an index, it also marks every older tool message it reaches that
    is not the sentinel.  What stays is the newest tool output, up to the
    protect budget. *)
Theorem marks_are_oldest (messages : list message) (protect_last_turns : Z)
    (st : scan_state) (i j : nat) (m : message) :
  prune_scan messages protect_last_turns = Ok st →
  i ∈ to_prune st →
  j ≤ i →
  messages !! j = Some m →
  is_role "tool" m = true →
  is_sentinel m = false →
  visited messages protect_last_turns j = true →
  j ∈ to_prune st
  ∧ (seen messages protect_last_turns i
     ≤ seen messages protect_last_turns j)%Z.
Proof.
  intros Hst Hi Hji Hm Ht Hs Hv.
  destruct (prune_scan_inv _ _ _ Hst) as (Hin & _).
  destruct (proj1 (Hin i) Hi) as (mi & Hmi & _ & _ & Hwi & _ & Hpi).
  assert (Hdrop : drop i messages = drop (i - j) (drop j messages)).
  { rewrite drop_drop. f_equal. lia. }
  assert (Hseen : (seen messages protect_last_turns i
                   ≤ seen messages protect_last_turns j)%Z).
  { unfold seen. rewrite Hdrop.
    rewrite <- (take_drop (i - j) (drop j messages)) at 2.
    apply seen_tokens_app_ge. }
  split; [| done].
  apply Hin. exists m. split; [done |].
  split; [done |]. split; [done |]. split; [| split; [done | lia]].
  unfold in_window in *. apply Z.ltb_ge. apply Z.ltb_ge in Hwi.
  rewrite Hdrop in Hwi.
  pose proof (user_turns_drop_le (drop j messages) (i - j)). lia.
Qed.

Lemma marks_are_oldest_witness :
  prune_scan two_tools_history 2 = Ok (mk_scan 50000 50000 [3; 2] 3)
  ∧ 3 ∈ [3; 2]
  ∧ two_tools_history !! 2 = Some (str_msg "tool" (filler 20000))
  ∧ 2 ∈ [3; 2].
Proof.
  assert (Hst : prune_scan two_tools_history 2
                = Ok (mk_scan 50000 50000 [3; 2] 3))
    by (vm_compute; reflexivity).
  assert (Hi : 3 ∈ to_prune (mk_scan 50000 50000 [3; 2] 3)) by left.
  split; [exact Hst |]. split; [exact Hi |]. split; [reflexivity |].
  apply (marks_are_oldest two_tools_history 2 _ 3 2
           (str_msg "tool" (filler 20000)) Hst Hi);
    [lia | reflexivity | reflexivity | | ].
  - vm_compute. reflexivity.
  - vm_compute. reflexivity.
Defined.

(** ** When the planner plans nothing *)

(** X13.  On a well-formed history the planner returns count 0 exactly when
    the estimated total is at most the target or the history has at most 4
    messages.  Its third no-op test, [tokens_to_remove <= 0], never decides:
    past the first test the tokens to remove exceed the 2000 set aside for
    the summary. *)
Theorem planner_noop_exactly (messages : list message)
    (target_tokens start count : Z) :
  forallb message_ok messages = true →
  _find_messages_to_compact messages target_tokens = Ok (start, count) →
  (count = 0%Z ↔
   (Zsum (map message_tokens messages) ≤ target_tokens)%Z
   ∨ length messages ≤ 4)
  ∧ ((target_tokens < Zsum (map message_tokens messages))%Z →
     (0 < Zsum (map message_tokens (drop PROTECTED_MESSAGE_COUNT messages))
          - (target_tokens
             - Zsum (map message_tokens
                         (take PROTECTED_MESSAGE_COUNT messages))
             - SUMMARY_TOKEN_ESTIMATE))%Z).
Proof.
  intros Hok Hplan.
  pose proof (planner_contract messages target_tokens Hok) as H.
  cbv zeta in H.
  destruct H as (s & c & E & Hnoop & Hfull & Hwalk & Hrange).
  rewrite Hplan in E. injection E as <- <-.
  pose proof (Zsum_take_drop message_tokens messages PROTECTED_MESSAGE_COUNT)
    as Hsplit.
  set (pt := Zsum (map message_tokens (take PROTECTED_MESSAGE_COUNT messages)))
    in *.
  set (ct := Zsum (map message_tokens (drop PROTECTED_MESSAGE_COUNT messages)))
    in *.
  rewrite Hsplit.
  assert (Hn : (Z.of_nat (length (drop PROTECTED_MESSAGE_COUNT messages)) ≤ 2)%Z
               ↔ length messages ≤ 4).
  { rewrite length_drop. unfold PROTECTED_MESSAGE_COUNT. lia. }
  set (n := Z.of_nat (length (drop PROTECTED_MESSAGE_COUNT messages))) in *.
  assert (HE : SUMMARY_TOKEN_ESTIMATE = 2000%Z) by reflexivity.
  split; [| lia].
  split.
  - intros ->.
    destruct (Z.le_gt_cases (pt + ct) target_tokens) as [|H1]; [by left |].
    destruct (Z.le_gt_cases n 2) as [|H2]; [right; by apply Hn |].
    exfalso.
    destruct (Z.le_gt_cases (target_tokens - pt - SUMMARY_TOKEN_ESTIMATE) 0)
      as [H3|H3].
    { destruct Hfull as [_ Hc]; lia. }
    destruct Hwalk as (_ & k & (Hk & _) & Hc); lia.
  - intros [H1|H2]; apply Hnoop; [by left |].
    right. left. by apply Hn.
Qed.

Lemma planner_noop_exactly_witness :
  forallb message_ok (long_history 10 4000) = true
  ∧ _find_messages_to_compact (long_history 10 4000) 10055 = Ok (0, 0)%Z
  ∧ (Zsum (map message_tokens (long_history 10 4000)) ≤ 10055)%Z.
Proof.
  assert (Hok : forallb message_ok (long_history 10 4000) = true)
    by (vm_compute; reflexivity).
  assert (Hplan : _find_messages_to_compact (long_history 10 4000) 10055
                  = Ok (0, 0)%Z) by (vm_compute; reflexivity).
  split; [exact Hok |]. split; [exact Hplan |].
  destruct (planner_noop_exactly _ _ _ _ Hok Hplan) as ((Hzero & _) & _).
  destruct (Hzero eq_refl) as [Hle|Hlen]; [exact Hle |].
  vm_compute in Hlen. lia.
Defined.

(** ** What a committed pruning recovers *)

Lemma Zsum_insert (f : message → Z) (l : list message) (i : nat)
    (x y : message) :
  l !! i = Some y →
  Zsum (map f (<[i:=x]> l)) = (Zsum (map f l) - f y + f x)%Z.
Proof.
  revert i. induction l as [|a l IH]; intros [|i] Hy; try done; simpl.
  - injection Hy as ->. lia.
  - rewrite (IH i Hy). lia.
Qed.

Lemma prune_commit_cons (messages : list message) (tp : list nat) (i : nat)
    (m : message) :
  messages !! i = Some m →
  prune_commit messages (i :: tp)
  = <[i := dict_set m "content" (PyStr PRUNE_MARKER)]>
      (prune_commit messages tp).
Proof.
  intros Hm. apply list_eq. intros j.
  destruct (decide (j = i)) as [->|Hne].
  - rewrite (prune_commit_lookup_in _ _ _ _ Hm) by left.
    rewrite list_lookup_insert_eq; [done |].
    rewrite prune_commit_length. by eapply lookup_lt_Some.
  - rewrite list_lookup_insert_ne by done.
    destruct (decide (j ∈ tp)) as [Hj|Hj].
    + destruct (messages !! j) as [mj|] eqn:Hmj.
      * rewrite !(prune_commit_lookup_in _ _ _ _ Hmj); [done | done |].
        by right.
      * rewrite !(proj2 (lookup_ge_None _ _)); [done | |];
          rewrite prune_commit_length; by apply lookup_ge_None.
    + rewrite !prune_commit_lookup_out; [done | done |].
      intros [->|?]%elem_of_cons; done.
Qed.

Lemma message_tokens_set_content (m : message) (s : string) :
  message_tokens (dict_set m "content" (PyStr s))
  = (message_tokens m - content_tokens (dict_get m "content" PyNone)
     + chars_tokens s)%Z.
Proof.
  unfold message_tokens, attached_calls, dict_get.
  rewrite dict_lookup_set_eq, dict_lookup_set_ne by done. simpl. lia.
Qed.

Lemma text_content_tokens (m : message) :
  text_content m = true →
  content_tokens (dict_get m "content" PyNone) = len_tokens (msg_content m).
Proof.
  unfold text_content, msg_content, dict_get.
  destruct (dict_lookup m "content") as [[| | |s| |]|]; done.
Qed.

Lemma commit_tokens (messages : list message) (tp : list nat) :
  NoDup tp →
  (∀ i, i ∈ tp → ∃ m, messages !! i = Some m ∧ text_content m = true) →
  Zsum (map message_tokens (prune_commit messages tp))
  = (Zsum (map message_tokens messages)
     - Zsum (map (tokens_at messages) tp)
     + 8 * Z.of_nat (length tp))%Z.
Proof.
  induction tp as [|i tp IH]; intros Hnd Htext.
  - replace (prune_commit messages []) with messages; [simpl; lia |].
    apply list_eq. intros j. by rewrite prune_commit_lookup_out
      by apply not_elem_of_nil.
  - apply NoDup_cons in Hnd as [Hi Hnd].
    destruct (Htext i ltac:(left)) as (m & Hm & Ht).
    rewrite (prune_commit_cons _ _ _ _ Hm).
    rewrite (Zsum_insert _ _ _ _ m)
      by (by rewrite prune_commit_lookup_out).
    rewrite IH; [| done | intros j Hj; apply Htext; by right].
    rewrite message_tokens_set_content, (text_content_tokens _ Ht).
    cbn [map Zsum foldr length]. unfold tokens_at at 2. rewrite Hm.
    fold (Zsum (map (tokens_at messages) tp)).
    change (chars_tokens PRUNE_MARKER) with 8%Z. lia.
Qed.

(** X14.  What a committed pruning recovers: on a well-formed history whose
    tool contents are strings, the estimate of the pruned history is the
    estimate of the input, minus the scan's [pruned] total, plus 8 tokens
    (the sentinel's own estimate) for each cleared message. *)
Theorem prune_recovers (messages : list message) (protect_last_turns : Z)
    (st : scan_state) :
  forallb message_ok messages = true →
  (∀ m, m ∈ messages → is_role "tool" m = true → text_content m = true) →
  prune_scan messages protect_last_turns = Ok st →
  (PRUNE_MINIMUM < pruned st)%Z →
  ∃ p, prune_old_tool_outputs messages protect_last_turns = Ok p
       ∧ estimate_total_tokens p
         = Ok (Zsum (map message_tokens messages) - pruned st
               + 8 * Z.of_nat (length (to_prune st)))%Z.
Proof.
  intros Hok Htext Hst Hgt.
  exists (prune_commit messages (to_prune st)).
  rewrite (prune_old_tool_outputs_eq _ _ _ Hst).
  destruct (Z.leb_spec (pruned st) PRUNE_MINIMUM) as [|_]; [lia |].
  split; [done |].
  rewrite estimate_total_tokens_ok by by apply prune_commit_message_ok.
  destruct (prune_scan_inv _ _ _ Hst) as (Hin & Hnd & Hsum).
  rewrite commit_tokens, <- Hsum; [done | done |].
  intros i (m & Hm & Ht & _)%Hin. exists m. split; [done |].
  apply Htext; [| done]. apply list_elem_of_lookup. eauto.
Qed.

Lemma prune_recovers_witness :
  forallb message_ok stale_tool_history = true
  ∧ prune_scan stale_tool_history 2 = Ok (mk_scan 42500 42500 [3] 3)
  ∧ estimate_total_tokens stale_tool_history = Ok 42540%Z
  ∧ ∃ p, prune_old_tool_outputs stale_tool_history 2 = Ok p
         ∧ estimate_total_tokens p = Ok 48%Z.
Proof.
  assert (Hok : forallb message_ok stale_tool_history = true)
    by (vm_compute; reflexivity).
  assert (Hst : prune_scan stale_tool_history 2
                = Ok (mk_scan 42500 42500 [3] 3)) by (vm_compute; reflexivity).
  assert (Htext : ∀ m, m ∈ stale_tool_history →
                       is_role "tool" m = true → text_content m = true).
  { intros m Hm _. unfold stale_tool_history in Hm.
    repeat (apply elem_of_cons in Hm as [->|Hm]; [reflexivity |]).
    destruct (not_elem_of_nil _ Hm). }
  assert (Hgt : (PRUNE_MINIMUM < pruned (mk_scan 42500 42500 [3%nat] 3))%Z)
    by reflexivity.
  split; [exact Hok |]. split; [exact Hst |].
  split; [vm_compute; reflexivity |].
  destruct (prune_recovers stale_tool_history 2 _ Hok Htext Hst Hgt)
    as (p & Hp & Hest).
  exists p. split; [exact Hp |]. rewrite Hest.
  vm_compute. reflexivity.
Defined.

(** ** The scan's running total and the tool output *)

Lemma tool_text_content_ok (m : message) :
  tool_text m = true → content_ok m = true.
Proof.
  unfold tool_text, content_ok, text_content.
  destruct (is_role "tool" m); simpl; [| done].
  by destruct (msg_content m).
Qed.

Lemma tool_text_tokens (m : message) :
  tool_text m = true →
  is_role "tool" m = true →
  len_tokens (msg_content m) = tool_output_tokens m.
Proof.
  unfold tool_text. intros Htext Ht. rewrite Ht in Htext. simpl in Htext.
  unfold tool_output_tokens. by rewrite text_content_tokens.
Qed.

(** On string contents the scan's running total is the tool output seen. *)
Lemma seen_output_eq (plt : Z) (l : list message) :
  forallb tool_text l = true → seen_tokens plt l = seen_output plt l.
Proof.
  induction l as [|m l IH]; [done |].
  intros [Hm Hl]%andb_prop. cbn [seen_tokens seen_output].
  rewrite (IH Hl).
  destruct (is_role "tool" m) eqn:Et; simpl; [| done].
  destruct (negb _); [| done]. by rewrite (tool_text_tokens _ Hm Et).
Qed.

(** C4 (counterexample).  A tool result given as a part list with 50004
    tokens of text lies outside the protected turns, is not the sentinel and
    is reached by the scan, and the tool output tokens seen there exceed both
    budgets; yet the scan counts the list by its number of parts, its total
    stays 0, nothing is marked and the pruner returns the input. *)
Lemma prune_scan_counts_parts :
  message_ok part_list_tool_msg = true
  ∧ part_list_tool_history !! 2 = Some part_list_tool_msg
  ∧ marked_output part_list_tool_history 2 2 part_list_tool_msg
  ∧ output_tokens_at part_list_tool_history 2 = 50004%Z
  ∧ (PRUNE_MINIMUM < output_tokens_at part_list_tool_history 2)%Z
  ∧ prune_scan part_list_tool_history 2 = Ok (mk_scan 0 0 [] 3)
  ∧ prune_old_tool_outputs part_list_tool_history 2
    = Ok part_list_tool_history.
Proof.
  assert (Hst : prune_scan part_list_tool_history 2 = Ok (mk_scan 0 0 [] 3))
    by (vm_compute; reflexivity).
  split; [vm_compute; reflexivity |]. split; [reflexivity |].
  split.
  { unfold marked_output.
    split; [vm_compute; reflexivity |]. split; [vm_compute; reflexivity |].
    split; [vm_compute; reflexivity |]. split; vm_compute; reflexivity. }
  split; [vm_compute; reflexivity |]. split; [vm_compute; reflexivity |].
  split; [exact Hst |].
  rewrite (prune_old_tool_outputs_eq _ _ _ Hst). reflexivity.
Qed.

(** C4 (amended).  On a history whose tool messages carry string content
    (or none), for any [protect_last_turns]: the scan returns, and marks an
    index exactly when its message is a tool message that is not the
    sentinel, lies outside the last [protect_last_turns] user turns, is
    reached by the scan, and has the running total of tool output tokens
    above [PRUNE_PROTECT]; [pruned] is the sum of the marked messages' tool
    output tokens.  When [pruned] exceeds [PRUNE_MINIMUM] the evictions are
    committed: the result has the input's length, holds at each marked index
    the input's message with its content set to the sentinel and at every
    other index the input's message, and differs from the input.  Otherwise
    the result is the input itself.  Nothing is raised. *)
Theorem prune_marks_and_commits (messages : list message)
    (protect_last_turns : Z) :
  forallb tool_text messages = true →
  ∃ st p,
    prune_scan messages protect_last_turns = Ok st
    ∧ prune_old_tool_outputs messages protect_last_turns = Ok p
    ∧ (∀ i, i ∈ to_prune st ↔
            ∃ m, messages !! i = Some m
                 ∧ marked_output messages protect_last_turns i m)
    ∧ NoDup (to_prune st)
    ∧ pruned st = Zsum (map (output_tokens_at messages) (to_prune st))
    ∧ ((PRUNE_MINIMUM < pruned st)%Z →
       length p = length messages
       ∧ (∀ i m, messages !! i = Some m →
            (i ∈ to_prune st →
             p !! i = Some (dict_set m "content" (PyStr PRUNE_MARKER))
             ∧ dict_lookup (dict_set m "content" (PyStr PRUNE_MARKER))
                           "content"
               = Some (PyStr PRUNE_MARKER))
            ∧ (i ∉ to_prune st → p !! i = Some m))
       ∧ p ≠ messages)
    ∧ ((pruned st ≤ PRUNE_MINIMUM)%Z → p = messages).
Proof.
  intros Htext.
  assert (Hok : forallb content_ok messages = true).
  { rewrite forallb_forall in Htext. apply forallb_forall.
    intros m Hm. by apply tool_text_content_ok, Htext. }
  destruct (prune_scan_total messages protect_last_turns Hok) as (st & Hst).
  destruct (prune_scan_inv _ _ _ Hst) as (Hin & Hnd & Hsum).
  exists st, (if (pruned st <=? PRUNE_MINIMUM)%Z then messages
              else prune_commit messages (to_prune st)).
  split; [done |]. split; [by apply prune_old_tool_outputs_eq |].
  assert (Hseen : ∀ i, seen messages protect_last_turns i
                       = seen_output protect_last_turns (drop i messages)).
  { intros i. apply seen_output_eq. by apply forallb_drop. }
  assert (Hmarks : ∀ i, i ∈ to_prune st ↔
            ∃ m, messages !! i = Some m
                 ∧ marked_output messages protect_last_turns i m).
  { intros i. rewrite Hin. unfold marked, marked_output.
    split; intros (m & Hm & H1 & H2 & H3 & H4 & H5); exists m;
      (split; [done |]); repeat (split; [done |]).
    - by rewrite <- Hseen.
    - by rewrite Hseen. }
  split; [done |]. split; [done |]. split.
  { rewrite Hsum. f_equal. apply map_ext_in.
    intros i (m & Hm & Ht & _)%list_elem_of_In%Hin.
    unfold tokens_at, output_tokens_at. rewrite Hm.
    apply tool_text_tokens; [| done].
    rewrite forallb_forall in Htext.
    apply Htext, list_elem_of_In, list_elem_of_lookup. eauto. }
  destruct (Z.leb_spec (pruned st) PRUNE_MINIMUM) as [Hle|Hgt].
  { split; [lia | done]. }
  split; [| lia]. intros _.
  split; [apply prune_commit_length |]. split.
  - intros i m Hm. split.
    + intros Hi. split; [by apply prune_commit_lookup_in |].
      apply dict_lookup_set_eq.
    + intros Hi. by rewrite prune_commit_lookup_out.
  - intros Heq.
    assert (Hex : ∃ i, i ∈ to_prune st).
    { destruct (to_prune st) as [|i tp]; [| exists i; left].
      simpl in Hsum. unfold PRUNE_MINIMUM in Hgt. lia. }
    destruct Hex as (i & Hi).
    pose proof (proj1 (Hin i) Hi) as (m & Hm & _ & Hs & _).
    pose proof (prune_commit_lookup_in messages (to_prune st) i m Hm Hi)
      as Hc.
    rewrite Heq, Hm in Hc. injection Hc as Hc.
    rewrite Hc, is_sentinel_set in Hs. done.
Qed.

Lemma prune_marks_and_commits_witness :
  forallb tool_text stale_tool_history = true
  ∧ ∃ st p,
      prune_scan stale_tool_history 2 = Ok st
      ∧ prune_old_tool_outputs stale_tool_history 2 = Ok p
      ∧ to_prune st = [3]
      ∧ pruned st = 42500%Z
      ∧ length p = 6
      ∧ p !! 3 = Some sentinel_msg
      ∧ p !! 4 = Some (str_msg "user" "Try again.").
Proof.
  assert (Htext : forallb tool_text stale_tool_history = true)
    by (vm_compute; reflexivity).
  split; [exact Htext |].
  destruct (prune_marks_and_commits stale_tool_history 2 Htext)
    as (st & p & Hst & Hp & _ & _ & _ & Hcommit & _).
  exists st, p. split; [exact Hst |]. split; [exact Hp |].
  vm_compute in Hst. injection Hst as <-.
  split; [reflexivity |]. split; [reflexivity |].
  destruct (Hcommit eq_refl) as (Hlen & Hat & _).
  split; [exact Hlen |]. split.
  - destruct (Hat 3 (str_msg "tool" (filler 170000)) eq_refl) as (Hin & _).
    destruct Hin as (H3 & _); [by left |]. exact H3.
  - destruct (Hat 4 (str_msg "user" "Try again.") eq_refl) as (_ & Hout).
    apply Hout. by intros ?%list_elem_of_singleton.
Defined.
